(** * Run metrics and output artifacts of the workflow orchestrator

    A shallow embedding of the bookkeeping code of
    [src/workflow_orchestrator.py] (class [WorkflowOrchestrator]):
    the slug and file-name derivation, the artifact writer
    [save_output_files], the metrics counters with their running average,
    [run_workflow] with its [try]/[except] boundary, and [batch_process].

    Conventions of the model.
    - A Python [str] is a Rocq [string]; a character is a code point below
      256 (Latin-1), classified as Python's [str.isalnum], [str.isspace] and
      [str.lower] classify it.
    - A Python [int] is a [Z].  A Python [float] is an exact rational [Q]:
      rounding is not modelled, numeric results are compared with [==].
    - A [dict] is an association list in insertion order.
    - The agent framework, the wall clock and the file system are the
      environment: oracles indexed by the number of interactions made so
      far, so that every call can behave differently.
    - An exception is an instance of Python's [Exception], the class the
      handlers of the source catch.
    - The f-string of the HTML template has a backslash inside its
      replacement field, which Python accepts from version 3.12 on; the
      model reads the source as that version does. *)

From Stdlib Require Import ZArith QArith Ascii String List Lia.
From Stdlib Require Import DecimalString.
From Stdlib Require DecimalPos DecimalZ.
From stdpp Require Import gmap strings list.

Open Scope string_scope.
Open Scope Z_scope.

(** ** Python strings *)

Module PyStr.

Definition code (c : ascii) : Z := Z.of_N (N_of_ascii c).

Definition in_range (lo hi n : Z) : bool := (lo <=? n) && (n <=? hi).

(** [c.isalnum()] for a code point below 256. *)
Definition isalnum (c : ascii) : bool :=
  let n := code c in
  in_range 48 57 n || in_range 65 90 n || in_range 97 122 n
  || (n =? 170) || in_range 178 179 n || (n =? 181)
  || in_range 185 186 n || in_range 188 190 n
  || in_range 192 214 n || in_range 216 246 n || in_range 248 255 n.

(** [c.isspace()] for a code point below 256. *)
Definition isspace (c : ascii) : bool :=
  let n := code c in
  in_range 9 13 n || in_range 28 32 n || (n =? 133) || (n =? 160).

(** [c.lower()] for a code point below 256 (always one character there). *)
Definition lower_char (c : ascii) : ascii :=
  let n := code c in
  if in_range 65 90 n || in_range 192 214 n || in_range 216 222 n
  then ascii_of_N (Z.to_N (n + 32))
  else c.

(** The join of the characters of [s] that [keep] accepts, in order. *)
Fixpoint filter_join (keep : ascii -> bool) (s : string) : string :=
  match s with
  | EmptyString => EmptyString
  | String c s' =>
      if keep c then String c (filter_join keep s') else filter_join keep s'
  end.

(** [s.rstrip()]: the trailing whitespace is removed. *)
Fixpoint rstrip (s : string) : string :=
  match s with
  | EmptyString => EmptyString
  | String c s' =>
      match rstrip s' with
      | EmptyString => if isspace c then EmptyString else String c EmptyString
      | r => String c r
      end
  end.

(** [s.lower()] *)
Fixpoint lower (s : string) : string :=
  match s with
  | EmptyString => EmptyString
  | String c s' => String (lower_char c) (lower s')
  end.

(** Scan of [s.replace(old, new)] for a non-empty [old]: [skip] counts the
    characters of a match that are still to be dropped. *)
Fixpoint replace_scan (old new : string) (skip : nat) (s : string) : string :=
  match s with
  | EmptyString => EmptyString
  | String c s' =>
      match skip with
      | S k => replace_scan old new k s'
      | O =>
          if String.prefix old s
          then new +:+ replace_scan old new (String.length old - 1) s'
          else String c (replace_scan old new 0 s')
      end
  end.

(** For an empty [old], Python puts [new] before every character and at
    the end. *)
Fixpoint intersperse (new : string) (s : string) : string :=
  match s with
  | EmptyString => new
  | String c s' => new +:+ String c (intersperse new s')
  end.

(** [s.replace(old, new)] *)
Definition replace (old new s : string) : string :=
  match old with
  | EmptyString => intersperse new s
  | _ => replace_scan old new 0 s
  end.

(** Loop of [s.split()]: [cur] is the word being read. *)
Fixpoint split_scan (cur : string) (s : string) : list string :=
  match s with
  | EmptyString =>
      match cur with EmptyString => [] | _ => [cur] end
  | String c s' =>
      if isspace c
      then match cur with
           | EmptyString => split_scan EmptyString s'
           | _ => cur :: split_scan EmptyString s'
           end
      else split_scan (cur +:+ String c EmptyString) s'
  end.

(** [s.split()]: the maximal runs of characters that are not whitespace. *)
Definition split (s : string) : list string := split_scan EmptyString s.

(** [str(n)] for an integer. *)
Definition of_Z (n : Z) : string := NilZero.string_of_int (Z.to_int n).

Fixpoint zeros (k : nat) : string :=
  match k with
  | O => EmptyString
  | S k' => String "0" (zeros k')
  end.

(** ["%0<w>d" % n]: zero padding to width [w], the sign counted in it. *)
Definition fmt_0d (w : nat) (n : Z) : string :=
  if n <? 0
  then
    let d := of_Z (- n) in
    String "-" (zeros (w - 1 - String.length d) +:+ d)
  else
    let d := of_Z n in
    zeros (w - String.length d) +:+ d.

End PyStr.

(** ** Python's [datetime] and [timedelta] *)

Module PyTime.

(** A naive [datetime], as [datetime.now()] returns it. *)
Record datetime := mk_datetime {
  year : Z; month : Z; day : Z;
  hour : Z; minute : Z; second : Z; microsecond : Z
}.

(** A [timedelta] in Python's normal form:
    [0 <= seconds < 86400] and [0 <= microseconds < 1000000]. *)
Record timedelta := mk_timedelta {
  days : Z; seconds : Z; microseconds : Z
}.

Definition is_leap (y : Z) : bool :=
  (y mod 4 =? 0) && (negb (y mod 100 =? 0) || (y mod 400 =? 0)).

Definition days_before_year (y : Z) : Z :=
  let p := y - 1 in p * 365 + p / 4 - p / 100 + p / 400.

Definition days_before_month (y m : Z) : Z :=
  match m with
  | 1 => 0 | 2 => 31 | 3 => 59 | 4 => 90 | 5 => 120 | 6 => 151
  | 7 => 181 | 8 => 212 | 9 => 243 | 10 => 273 | 11 => 304 | 12 => 334
  | _ => 0
  end + (if (2 <? m) && is_leap y then 1 else 0).

(** [d.toordinal()] *)
Definition toordinal (d : datetime) : Z :=
  days_before_year (year d) + days_before_month (year d) (month d) + day d.

(** [timedelta(days, seconds, microseconds)] with its normalisation. *)
Definition make_timedelta (d s us : Z) : timedelta :=
  let total := (d * 86400 + s) * 1000000 + us in
  let rest := total mod 86400000000 in
  {| days := total / 86400000000;
     seconds := rest / 1000000;
     microseconds := rest mod 1000000 |}.

(** [a - b] on two naive datetimes. *)
Definition sub (a b : datetime) : timedelta :=
  make_timedelta
    (toordinal a - toordinal b)
    ((second a + minute a * 60 + hour a * 3600)
     - (second b + minute b * 60 + hour b * 3600))
    (microsecond a - microsecond b).

(** [td.total_seconds()] *)
Definition total_seconds (td : timedelta) : Q :=
  (inject_Z ((days td * 86400 + seconds td) * 1000000 + microseconds td)
   / inject_Z 1000000)%Q.

(** [str(td)] *)
Definition str_timedelta (td : timedelta) : string :=
  let mm := seconds td / 60 in
  let ss := seconds td mod 60 in
  let hh := mm / 60 in
  let mm := mm mod 60 in
  let s := PyStr.of_Z hh +:+ ":" +:+ PyStr.fmt_0d 2 mm
           +:+ ":" +:+ PyStr.fmt_0d 2 ss in
  let s :=
    if days td =? 0 then s
    else PyStr.of_Z (days td) +:+ " day"
         +:+ (if Z.abs (days td) =? 1 then "" else "s") +:+ ", " +:+ s in
  if microseconds td =? 0 then s
  else s +:+ "." +:+ PyStr.fmt_0d 6 (microseconds td).

(** [d.isoformat()] *)
Definition isoformat (d : datetime) : string :=
  let s := PyStr.fmt_0d 4 (year d) +:+ "-" +:+ PyStr.fmt_0d 2 (month d)
           +:+ "-" +:+ PyStr.fmt_0d 2 (day d) +:+ "T"
           +:+ PyStr.fmt_0d 2 (hour d) +:+ ":" +:+ PyStr.fmt_0d 2 (minute d)
           +:+ ":" +:+ PyStr.fmt_0d 2 (second d) in
  if microsecond d =? 0 then s
  else s +:+ "." +:+ PyStr.fmt_0d 6 (microsecond d).

(** [d.strftime("%Y%m%d_%H%M%S")]; the C library writes the year without
    padding, the other fields on two digits. *)
Definition strftime_Ymd_HMS (d : datetime) : string :=
  PyStr.of_Z (year d) +:+ PyStr.fmt_0d 2 (month d) +:+ PyStr.fmt_0d 2 (day d)
  +:+ "_" +:+ PyStr.fmt_0d 2 (hour d) +:+ PyStr.fmt_0d 2 (minute d)
  +:+ PyStr.fmt_0d 2 (second d).

End PyTime.

(** ** Values, dictionaries, files and exceptions *)

(** The Python values that occur in the records of the orchestrator. *)
#[warnings="-register-all"]
Inductive value : Type :=
| VStr (s : string)
| VInt (n : Z)
| VFloat (q : Q)
| VBool (b : bool)
| VList (l : list value)
| VDict (d : list (string * value)).

(** A [dict] with string keys, in insertion order. *)
Abbreviation dict := (list (string * value)).

(** [d.get(k)] *)
Fixpoint dict_get (k : string) (d : dict) : option value :=
  match d with
  | [] => None
  | (k', v) :: d' => if String.eqb k k' then Some v else dict_get k d'
  end.

(** [d[k] = v]: an existing key keeps its place, a new key goes last. *)
Fixpoint dict_set (k : string) (v : value) (d : dict) : dict :=
  match d with
  | [] => [(k, v)]
  | (k', v') :: d' =>
      if String.eqb k k' then (k, v) :: d' else (k', v') :: dict_set k v d'
  end.

(** [k in d] *)
Definition dict_has (k : string) (d : dict) : bool :=
  match dict_get k d with Some _ => true | None => false end.

(** What a file holds: the text written to it, or the document that
    [json.dump] serialised. *)
Inductive file : Type :=
| TextFile (s : string)
| JsonFile (v : value).

(** An exception caught by [except Exception as e]: [str(e)] and the text
    that [traceback.format_exc()] gives for it. *)
Record exn := mk_exn { exn_str : string; exn_traceback : string }.

(** [KeyError(k)], raised by [d[k]] on a missing key. *)
Definition key_error (k : string) : exn :=
  {| exn_str := "'" +:+ k +:+ "'";
     exn_traceback := "KeyError: '" +:+ k +:+ "'" |}.

(** ** The orchestrator's state and its environment *)

(** [self.workflow_metrics] *)
Record metrics := mk_metrics {
  total_runs : Z;
  successful_runs : Z;
  failed_runs : Z;
  total_cost : Q;
  avg_duration : Q
}.

(** The metrics that [__init__] installs. *)
Definition init_metrics : metrics :=
  {| total_runs := 0; successful_runs := 0; failed_runs := 0;
     total_cost := 0%Q; avg_duration := 0%Q |}.

(** The orchestrator's metrics, the files on disk, and the number of
    interactions with the environment made so far. *)
Record world := mk_world {
  workflow_metrics : metrics;
  files : gmap string file;
  tick : nat
}.

(** The environment.  Each oracle is asked with the current [tick].
    - [clock]: what [datetime.now()] reads.
    - [crew_kickoff]: the framework's part of a run, that is
      [create_tasks], [create_crew] and [crew.kickoff]; it returns
      [str(result)] or raises, and may write files of its own.
    - [write_error]: the exception, if any, with which opening a path for
      writing (or the write itself) fails. *)
Record env := mk_env {
  clock : nat -> PyTime.datetime;
  crew_kickoff :
    nat -> string -> Z -> gmap string file ->
    (string + exn) * gmap string file;
  write_error : nat -> string -> option exn
}.

(** The result of a computation: a value, or an exception that propagates. *)
Inductive outcome (A : Type) : Type :=
| Return (a : A)
| Raised (e : exn).
Arguments Return {A} a.
Arguments Raised {A} e.

(** A computation on the world.  The world after an exception keeps the
    mutations made before it. *)
Definition M (A : Type) : Type := world -> outcome A * world.

Definition ret {A} (a : A) : M A := fun w => (Return a, w).

Definition bind {A B} (m : M A) (k : A -> M B) : M B :=
  fun w =>
    match m w with
    | (Return a, w') => k a w'
    | (Raised e, w') => (Raised e, w')
    end.

(** [try: m  except Exception as e: h e] *)
Definition try_except {A} (m : M A) (h : exn -> M A) : M A :=
  fun w =>
    match m w with
    | (Return a, w') => (Return a, w')
    | (Raised e, w') => h e w'
    end.

Notation "x <- m ;; k" := (bind m (fun x => k))
  (at level 100, m at next level, right associativity).

Definition with_tick (w : world) : world :=
  {| workflow_metrics := workflow_metrics w;
     files := files w;
     tick := S (tick w) |}.

(** [self.workflow_metrics[...] = ...] *)
Definition update_metrics (f : metrics -> metrics) : M unit :=
  fun w =>
    (Return tt,
     {| workflow_metrics := f (workflow_metrics w);
        files := files w;
        tick := tick w |}).

(** Read of [self.workflow_metrics]. *)
Definition read_metrics : M metrics :=
  fun w => (Return (workflow_metrics w), w).

(** [datetime.now()] *)
Definition now (E : env) : M PyTime.datetime :=
  fun w => (Return (clock E (tick w)), with_tick w).

(** The framework's part of a run. *)
Definition kickoff (E : env) (topic : string) (word_count : Z) : M string :=
  fun w =>
    let '(r, fs) := crew_kickoff E (tick w) topic word_count (files w) in
    let w' := {| workflow_metrics := workflow_metrics w;
                 files := fs;
                 tick := S (tick w) |} in
    match r with
    | inl s => (Return s, w')
    | inr e => (Raised e, w')
    end.

(** [with open(path, 'w') as f: f.write(content)] (or [json.dump]).  A
    write that fails leaves the files as they were. *)
Definition write_file (E : env) (path : string) (content : file) : M unit :=
  fun w =>
    match write_error E (tick w) path with
    | Some e => (Raised e, with_tick w)
    | None =>
        (Return tt,
         {| workflow_metrics := workflow_metrics w;
            files := <[path := content]> (files w);
            tick := S (tick w) |})
    end.

(** ** File names *)

Definition nl : string := String "010"%char EmptyString.
Definition dq : string := String "034"%char EmptyString.

(** [c.isalnum() or c in (' ', '-', '_')] *)
Definition keep_char (c : ascii) : bool :=
  PyStr.isalnum c
  || Ascii.eqb c " "%char || Ascii.eqb c "-"%char || Ascii.eqb c "_"%char.

(** The slug [safe_topic] that [_get_output_files] and [save_output_files]
    both derive from the topic. *)
Definition safe_topic (topic : string) : string :=
  let kept := PyStr.rstrip (PyStr.filter_join keep_char topic) in
  PyStr.lower (PyStr.replace " " "_" kept).

(** The stem [{safe_topic}_{timestamp_str}] of the file names. *)
Definition file_stem (topic : string) (timestamp : PyTime.datetime) : string :=
  safe_topic topic +:+ "_" +:+ PyTime.strftime_Ymd_HMS timestamp.

Definition blog_posts : string := "outputs/blog_posts/".

Definition _get_output_files
    (topic : string) (timestamp : PyTime.datetime) : list string :=
  let stem := file_stem topic timestamp in
  [ blog_posts +:+ stem +:+ ".md";
    blog_posts +:+ stem +:+ ".html";
    blog_posts +:+ stem +:+ ".txt";
    blog_posts +:+ stem +:+ "_metadata.json" ].

(** ** The artifact writer *)

(** The template of the HTML file up to the place of the content. *)
Definition html_head (topic : string) : string :=
  String.concat nl
    [ "<!DOCTYPE html>";
      "<html>";
      "<head>";
      "    <title>" +:+ topic +:+ "</title>";
      "    <meta charset=" +:+ dq +:+ "UTF-8" +:+ dq +:+ ">";
      "    <meta name=" +:+ dq +:+ "viewport" +:+ dq +:+ " content=" +:+ dq
        +:+ "width=device-width, initial-scale=1.0" +:+ dq +:+ ">";
      "    <style>";
      "        body { font-family: Arial, sans-serif; line-height: 1.6; margin: 40px; }";
      "        h1, h2, h3 { color: #333; }";
      "        p { margin-bottom: 16px; }";
      "        pre { background-color: #f4f4f4; padding: 10px; border-radius: 5px; }";
      "    </style>";
      "</head>";
      "<body>";
      "    <div id=" +:+ dq +:+ "content" +:+ dq +:+ ">";
      "        " ].

(** The template after the content. *)
Definition html_tail : string :=
  String.concat nl [ ""; "    </div>"; "</body>"; "</html>" ].

Definition html_content (topic content : string) : string :=
  html_head topic +:+ PyStr.replace nl "<br>" content +:+ html_tail.

(** The body of a [try] whose statements update a local variable: the
    statements run in order, and at the first exception the handler only
    logs, so the value the variable had before the failing statement is
    what remains. *)
Fixpoint try_steps {A} (steps : list (A -> M A)) (acc : A) : M A :=
  match steps with
  | [] => ret acc
  | step :: rest =>
      fun w =>
        match step acc w with
        | (Return acc', w') => try_steps rest acc' w'
        | (Raised _, w') => (Return acc, w')
        end
  end.

(** Write [content] to [path], then [files_saved[key] = path]. *)
Definition save_as (E : env) (key path : string) (content : file)
    (files_saved : dict) : M dict :=
  _ <- write_file E path content ;;
  ret (dict_set key (VStr path) files_saved).

(** The [metadata] dictionary; [files_saved] has the entries made so far. *)
Definition metadata_of (topic content : string) (timestamp : PyTime.datetime)
    (files_saved : dict) : dict :=
  [ ("topic", VStr topic);
    ("timestamp", VStr (PyTime.isoformat timestamp));
    ("word_count", VInt (Z.of_nat (length (PyStr.split content))));
    ("character_count", VInt (Z.of_nat (String.length content)));
    ("files_created", VDict files_saved);
    ("created_by", VStr "WorkflowOrchestrator") ].

Definition save_output_files (E : env)
    (topic content : string) (timestamp : PyTime.datetime) : M dict :=
  let stem := file_stem topic timestamp in
  try_steps
    [ save_as E "markdown" (blog_posts +:+ stem +:+ ".md") (TextFile content);
      save_as E "text" (blog_posts +:+ stem +:+ ".txt") (TextFile content);
      save_as E "html" (blog_posts +:+ stem +:+ ".html")
        (TextFile (html_content topic content));
      (fun files_saved =>
         save_as E "metadata" (blog_posts +:+ stem +:+ "_metadata.json")
           (JsonFile (VDict (metadata_of topic content timestamp files_saved)))
           files_saved) ]
    [].

(** ** Metrics *)

Definition _estimate_cost : Q :=
  let estimated_tokens := 15000 in
  let cost_per_1k_tokens := 0.002%Q in
  (inject_Z estimated_tokens / inject_Z 1000 * cost_per_1k_tokens)%Q.

(** [successful_runs / total_runs * 100 if total_runs > 0 else 0] *)
Definition success_rate (m : metrics) : value :=
  if 0 <? total_runs m
  then VFloat (inject_Z (successful_runs m) / inject_Z (total_runs m) * 100)%Q
  else VInt 0.

Definition get_performance_metrics (E : env) : M dict :=
  m <- read_metrics ;;
  last_updated <- now E ;;
  ret [ ("total_runs", VInt (total_runs m));
        ("successful_runs", VInt (successful_runs m));
        ("failed_runs", VInt (failed_runs m));
        ("success_rate", success_rate m);
        ("average_duration_seconds", VFloat (avg_duration m));
        ("estimated_cost_per_run", VFloat _estimate_cost);
        ("last_updated", VStr (PyTime.isoformat last_updated)) ].

Definition incr_total_runs (m : metrics) : metrics :=
  {| total_runs := total_runs m + 1;
     successful_runs := successful_runs m;
     failed_runs := failed_runs m;
     total_cost := total_cost m;
     avg_duration := avg_duration m |}.

Definition incr_successful_runs (m : metrics) : metrics :=
  {| total_runs := total_runs m;
     successful_runs := successful_runs m + 1;
     failed_runs := failed_runs m;
     total_cost := total_cost m;
     avg_duration := avg_duration m |}.

Definition incr_failed_runs (m : metrics) : metrics :=
  {| total_runs := total_runs m;
     successful_runs := successful_runs m;
     failed_runs := failed_runs m + 1;
     total_cost := total_cost m;
     avg_duration := avg_duration m |}.

(** The update of [avg_duration], made after [successful_runs] was
    incremented. *)
Definition update_avg_duration (seconds : Q) (m : metrics) : metrics :=
  {| total_runs := total_runs m;
     successful_runs := successful_runs m;
     failed_runs := failed_runs m;
     total_cost := total_cost m;
     avg_duration :=
       ((avg_duration m * inject_Z (successful_runs m - 1) + seconds)
        / inject_Z (successful_runs m))%Q |}.

(** ** Records of a run *)

Definition _save_workflow_results (E : env) (results : dict) : M unit :=
  timestamp <- now E ;;
  let filename := "outputs/metrics/workflow_results_"
                  +:+ PyTime.strftime_Ymd_HMS timestamp +:+ ".json" in
  try_except (write_file E filename (JsonFile (VDict results)))
             (fun _ => ret tt).

Definition _save_error_report (E : env) (error_details : dict) : M unit :=
  timestamp <- now E ;;
  let filename := "outputs/logs/error_report_"
                  +:+ PyTime.strftime_Ymd_HMS timestamp +:+ ".json" in
  try_except (write_file E filename (JsonFile (VDict error_details)))
             (fun _ => ret tt).

(** The crew has the four agents and the four tasks the source gives it. *)
Definition agents_used : Z := 4.
Definition tasks_completed : Z := 4.

Definition run_workflow (E : env) (topic : string) (word_count : Z) : M dict :=
  _ <- update_metrics incr_total_runs ;;
  start_time <- now E ;;
  try_except
    ( result <- kickoff E topic word_count ;;
      end_time <- now E ;;
      let duration := PyTime.sub end_time start_time in
      _ <- update_metrics incr_successful_runs ;;
      _ <- update_metrics (update_avg_duration (PyTime.total_seconds duration)) ;;
      performance <- get_performance_metrics E ;;
      let workflow_results :=
        [ ("topic", VStr topic);
          ("word_count", VInt word_count);
          ("start_time", VStr (PyTime.isoformat start_time));
          ("end_time", VStr (PyTime.isoformat end_time));
          ("duration", VStr (PyTime.str_timedelta duration));
          ("duration_seconds", VFloat (PyTime.total_seconds duration));
          ("final_output", VStr result);
          ("agents_used", VInt agents_used);
          ("tasks_completed", VInt tasks_completed);
          ("success", VBool true);
          ("output_files", VList (map VStr (_get_output_files topic start_time)));
          ("metrics", VDict performance) ] in
      _ <- _save_workflow_results E workflow_results ;;
      ret workflow_results )
    (fun e =>
      end_time <- now E ;;
      let duration := PyTime.sub end_time start_time in
      _ <- update_metrics incr_failed_runs ;;
      let error_details :=
        [ ("topic", VStr topic);
          ("word_count", VInt word_count);
          ("start_time", VStr (PyTime.isoformat start_time));
          ("end_time", VStr (PyTime.isoformat end_time));
          ("duration", VStr (PyTime.str_timedelta duration));
          ("error", VStr (exn_str e));
          ("traceback", VStr (exn_traceback e));
          ("success", VBool false) ] in
      _ <- _save_error_report E error_details ;;
      ret error_details).

(** ** Batches *)

(** The entry that the handler of [batch_process] appends. *)
Definition batch_error_entry (topic : string) (e : exn) : dict :=
  [ ("topic", VStr topic); ("error", VStr (exn_str e)); ("success", VBool false) ].

(** One turn of the loop of [batch_process] on the list [results]: the run,
    the append, the read of [result["success"]] for the log line, and the
    handler around the three. *)
Definition batch_step (E : env) (word_count : Z)
    (results : list dict) (topic : string) : M (list dict) :=
  fun w =>
    match run_workflow E topic word_count w with
    | (Return result, w') =>
        let results' := (results ++ [result])%list in
        match dict_get "success" result with
        | Some _ => (Return results', w')
        | None =>
            (Return (results' ++ [batch_error_entry topic (key_error "success")])%list, w')
        end
    | (Raised e, w') => (Return (results ++ [batch_error_entry topic e])%list, w')
    end.

Fixpoint batch_loop (E : env) (word_count : Z)
    (results : list dict) (topics : list string) : M (list dict) :=
  match topics with
  | [] => ret results
  | topic :: rest =>
      results' <- batch_step E word_count results topic ;;
      batch_loop E word_count results' rest
  end.

Definition batch_process (E : env) (topics : list string) (word_count : Z)
  : M (list dict) :=
  batch_loop E word_count [] topics.

(** ** Sequences of calls *)

(** [run_workflow] called for each [(topic, word_count)] in turn. *)
Fixpoint run_many (E : env) (calls : list (string * Z)) : M (list dict) :=
  match calls with
  | [] => ret []
  | (topic, word_count) :: rest =>
      r <- run_workflow E topic word_count ;;
      rs <- run_many E rest ;;
      ret (r :: rs)
  end.

(** A call of a public method of the orchestrator. *)
Inductive call : Type :=
| CallRun (topic : string) (word_count : Z)
| CallBatch (topics : list string) (word_count : Z)
| CallMetrics
| CallSave (topic content : string) (timestamp : PyTime.datetime).

(** The world after a call, whatever it returned or raised. *)
Definition exec_call (E : env) (c : call) (w : world) : world :=
  match c with
  | CallRun topic word_count => snd (run_workflow E topic word_count w)
  | CallBatch topics word_count => snd (batch_process E topics word_count w)
  | CallMetrics => snd (get_performance_metrics E w)
  | CallSave topic content timestamp =>
      snd (save_output_files E topic content timestamp w)
  end.

Definition exec_calls (E : env) (cs : list call) (w : world) : world :=
  fold_left (fun w c => exec_call E c w) cs w.

(** The world of a new orchestrator. *)
Definition new_world (fs : gmap string file) (t : nat) : world :=
  {| workflow_metrics := init_metrics; files := fs; tick := t |}.

(** What the framework answers in the run that starts in world [w]: the run
    reads the clock once before it asks. *)
Definition driver_result (E : env) (topic : string) (word_count : Z)
    (w : world) : string + exn :=
  fst (crew_kickoff E (S (tick w)) topic word_count (files w)).

(** ** Notions of the specification *)




(** A word: a non-empty string without a whitespace character. *)
Definition is_word (t : string) : Prop :=
  t <> EmptyString /\ PyStr.filter_join PyStr.isspace t = EmptyString.

(** The whitespace-delimited tokens of a text, counted as the specification
    words it: a token starts at every character that is not whitespace and
    that is the first one or follows a whitespace character. *)
Fixpoint token_starts (after_space : bool) (s : string) : nat :=
  match s with
  | EmptyString => O
  | String c s' =>
      let sp := PyStr.isspace c in
      ((if after_space && negb sp then 1 else 0) + token_starts sp s')%nat
  end.

Definition token_count (s : string) : nat := token_starts true s.

(** The text with every newline replaced by a line-break tag and every other
    character kept. *)
Fixpoint newlines_to_br (s : string) : string :=
  match s with
  | EmptyString => EmptyString
  | String c s' =>
      if Ascii.eqb c "010"%char
      then "<br>" +:+ newlines_to_br s'
      else String c (newlines_to_br s')
  end.

(** The counters of a metrics record are consistent. *)
Definition counters_ok (m : metrics) : Prop :=
  total_runs m = successful_runs m + failed_runs m
  /\ 0 <= total_runs m /\ 0 <= successful_runs m /\ 0 <= failed_runs m.

(** No counter of [m'] is below its value in [m]. *)
Definition counters_le (m m' : metrics) : Prop :=
  total_runs m <= total_runs m'
  /\ successful_runs m <= successful_runs m'
  /\ failed_runs m <= failed_runs m'.

(** The two groups of fields of a run record. *)
Definition has_output_group (r : dict) : Prop :=
  dict_has "final_output" r = true /\ dict_has "output_files" r = true.

Definition has_error_group (r : dict) : Prop :=
  dict_has "error" r = true /\ dict_has "traceback" r = true.

Definition lacks_output_group (r : dict) : Prop :=
  dict_has "final_output" r = false /\ dict_has "output_files" r = false.

Definition lacks_error_group (r : dict) : Prop :=
  dict_has "error" r = false /\ dict_has "traceback" r = false.

(** ** Environments and inputs of the examples *)

Module Examples.

Definition t_030405 : PyTime.datetime := PyTime.mk_datetime 2024 1 2 3 4 5 0.

(** A clock that advances by one second at every interaction. *)
Definition ticking_clock (n : nat) : PyTime.datetime :=
  PyTime.mk_datetime 2024 1 2 3 4 (5 + Z.of_nat n) 0.

Definition boom : exn := mk_exn "boom" "Traceback: boom".

(** A framework that fails on the topic [bad], writes no file, and
    otherwise returns a fixed text. *)
Definition picky_kickoff (_ : nat) (topic : string) (_ : Z)
    (fs : gmap string file) : (string + exn) * gmap string file :=
  (if String.eqb topic "bad" then inr boom else inl "final text", fs).

Definition never_fails (_ : nat) (_ : string) : option exn := None.

Definition E0 : env :=
  {| clock := ticking_clock;
     crew_kickoff := picky_kickoff;
     write_error := never_fails |}.

Definition w0 : world := new_world ∅ 0.

Definition two_lines : string := "Hello  <b>world</b>" +:+ nl +:+ "second & last".

(** A clock for three runs in a row that last 10, 5 and 20 seconds: a
    successful run reads the clock at its ticks 0 and 2 and takes six ticks,
    a failed one takes five. *)
Definition scenario_clock (n : nat) : PyTime.datetime :=
  match n with
  | 2%nat => PyTime.mk_datetime 2024 1 2 3 4 15 0
  | 8%nat => PyTime.mk_datetime 2024 1 2 3 4 10 0
  | 13%nat => PyTime.mk_datetime 2024 1 2 3 4 25 0
  | _ => t_030405
  end.

Definition E1 : env :=
  {| clock := scenario_clock;
     crew_kickoff := picky_kickoff;
     write_error := never_fails |}.

Definition scenario_calls : list (string * Z) :=
  [ ("first", 2000); ("bad", 2000); ("third", 2000) ].

End Examples.

(** ** Further notions, for the properties of the code beyond the claims *)

(** Every character of [s] satisfies [p]. *)
Fixpoint all_chars (p : ascii -> bool) (s : string) : bool :=
  match s with
  | EmptyString => true
  | String c s' => p c && all_chars p s'
  end.

(** The characters a slug is made of: alphanumeric, hyphen, underscore. *)
Definition slug_char (c : ascii) : bool :=
  PyStr.isalnum c || Ascii.eqb c "-"%char || Ascii.eqb c "_"%char.

(** The characters that must not occur in a file name made from a topic:
    whitespace, the slash, the backslash and the dot. *)
Definition path_special (c : ascii) : bool :=
  PyStr.isspace c || Ascii.eqb c "/"%char || Ascii.eqb c "092"%char
  || Ascii.eqb c "."%char.

(** [s] with every occurrence of the character [a] replaced by [new]. *)
Fixpoint subst_char (a : ascii) (new : string) (s : string) : string :=
  match s with
  | EmptyString => EmptyString
  | String c s' =>
      if Ascii.eqb c a then new +:+ subst_char a new s'
      else String c (subst_char a new s')
  end.

(** The paths that [save_output_files] writes, in the order of the writes. *)
Definition written_paths (topic : string) (timestamp : PyTime.datetime)
  : list string :=
  let stem := file_stem topic timestamp in
  [ blog_posts +:+ stem +:+ ".md";
    blog_posts +:+ stem +:+ ".txt";
    blog_posts +:+ stem +:+ ".html";
    blog_posts +:+ stem +:+ "_metadata.json" ].

(** The keys under which [save_output_files] records them. *)
Definition written_keys : list string :=
  [ "markdown"; "text"; "html"; "metadata" ].

(** What [save_output_files] returns when no write fails. *)
Definition all_saved (topic : string) (timestamp : PyTime.datetime) : dict :=
  zip written_keys (map VStr (written_paths topic timestamp)).

(** The file in which [_save_workflow_results] puts a record when the clock
    reads [timestamp]. *)
Definition results_file (timestamp : PyTime.datetime) : string :=
  "outputs/metrics/workflow_results_"
  +:+ PyTime.strftime_Ymd_HMS timestamp +:+ ".json".

(** The file in which [_save_error_report] puts a report. *)
Definition error_file (timestamp : PyTime.datetime) : string :=
  "outputs/logs/error_report_"
  +:+ PyTime.strftime_Ymd_HMS timestamp +:+ ".json".

(** The files after an attempt to write [content] to [path]. *)
Definition files_after_write (E : env) (t : nat) (path : string)
    (content : file) (fs : gmap string file) : gmap string file :=
  match write_error E t path with
  | None => <[path := content]> fs
  | Some _ => fs
  end.

(** The file in which the run that starts in world [w] saves its record,
    and the tick at which it writes it: the clock is read for the file name
    after the three or four interactions that precede it. *)
Definition record_file (E : env) (topic : string) (word_count : Z)
    (w : world) : string :=
  match driver_result E topic word_count w with
  | inl _ => results_file (clock E (4 + tick w))
  | inr _ => error_file (clock E (3 + tick w))
  end.

Definition record_write_tick (E : env) (topic : string) (word_count : Z)
    (w : world) : nat :=
  match driver_result E topic word_count w with
  | inl _ => (5 + tick w)%nat
  | inr _ => (4 + tick w)%nat
  end.

(** Python's truth value of a value, as [if r.get('success')] reads it. *)
Definition truthy (v : option value) : bool :=
  match v with
  | None => false
  | Some (VStr s) => negb (String.eqb s EmptyString)
  | Some (VInt n) => negb (n =? 0)
  | Some (VFloat q) => negb (Qeq_bool q 0)
  | Some (VBool b) => b
  | Some (VList l) => match l with [] => false | _ => true end
  | Some (VDict d) => match d with [] => false | _ => true end
  end.



(** Two readings of the clock in the same second. *)
Definition same_second (a b : PyTime.datetime) : Prop :=
  PyTime.year a = PyTime.year b /\ PyTime.month a = PyTime.month b
  /\ PyTime.day a = PyTime.day b /\ PyTime.hour a = PyTime.hour b
  /\ PyTime.minute a = PyTime.minute b /\ PyTime.second a = PyTime.second b.

(** ** Directories and the start of the program

    The directories are kept apart from the files of [world]: a path is the
    list of its components below the working directory, which is the empty
    path and always exists.  Permissions, links and the names [.] and [..]
    are not modelled. *)

Abbreviation path := (list string).

(** [os.fspath(Path(...))] for a relative path. *)
Definition path_str (p : path) : string := String.concat "/" p.

Record disk := mk_disk {
  dirs : gset (list string);
  regular : gmap string file
}.

(** The errors of the operating system that the calls below can raise. *)
Inductive os_error : Type :=
| FileNotFoundError (p : path)
| FileExistsError (p : path)
| NotADirectoryError (p : path)
| IsADirectoryError (p : path).

Definition is_dir (p : path) (d : disk) : bool :=
  match p with
  | [] => true
  | _ => bool_decide (p ∈ dirs d)
  end.

Definition is_file (p : path) (d : disk) : bool :=
  match regular d !! path_str p with
  | Some _ => true
  | None => false
  end.

(** How the system resolves the directories [seen/c1/c2/...] that lead to a
    path: a regular file on the way is not a directory, a missing component
    is not found. *)
Inductive walked : Type := WalkOk | WalkNotDir | WalkMissing.

Fixpoint walk (seen : path) (rest : list string) (d : disk) : walked :=
  match rest with
  | [] => WalkOk
  | c :: rest' =>
      let q := (seen ++ [c])%list in
      if is_file q d then WalkNotDir
      else if is_dir q d then walk q rest' d
      else WalkMissing
  end.

Definition add_dir (p : path) (d : disk) : disk :=
  {| dirs := {[ p ]} ∪ dirs d; regular := regular d |}.

(** [os.mkdir(p)] *)
Definition os_mkdir (p : path) (d : disk) : option os_error * disk :=
  match walk [] (removelast p) d with
  | WalkNotDir => (Some (NotADirectoryError p), d)
  | WalkMissing => (Some (FileNotFoundError p), d)
  | WalkOk =>
      if is_file p d || is_dir p d
      then (Some (FileExistsError p), d)
      else (None, add_dir p d)
  end.

(** [Path(p).mkdir(parents=True, exist_ok=True)], as [pathlib] writes it:
    [os.mkdir] first; when a parent is missing, the parent is made in the
    same way and [os.mkdir] is tried again; any other error is passed over
    when the path is a directory.  [fuel] bounds the climb to the parents. *)
Fixpoint mkdir_parents (fuel : nat) (p : path) (d : disk)
  : option os_error * disk :=
  match os_mkdir p d with
  | (None, d') => (None, d')
  | (Some (FileNotFoundError q), _) =>
      match p, fuel with
      | [], _ => (Some (FileNotFoundError q), d)
      | _, O => (Some (FileNotFoundError q), d)
      | _, S fuel' =>
          match mkdir_parents fuel' (removelast p) d with
          | (Some e, d') => (Some e, d')
          | (None, d') =>
              match os_mkdir p d' with
              | (None, d'') => (None, d'')
              | (Some (FileNotFoundError q'), d'') =>
                  (Some (FileNotFoundError q'), d'')
              | (Some e, d'') =>
                  if is_dir p d'' then (None, d'') else (Some e, d'')
              end
          end
      end
  | (Some e, _) => if is_dir p d then (None, d) else (Some e, d)
  end.

(** [Path(directory).mkdir(parents=True, exist_ok=True)] *)
Definition mkdir_p (p : path) (d : disk) : option os_error * disk :=
  mkdir_parents (length p) p d.

(** The directories of [setup_directories]. *)
Definition directories : list path :=
  [ ["outputs"; "blog_posts"];
    ["outputs"; "research_reports"];
    ["outputs"; "logs"];
    ["outputs"; "metrics"] ].

(** The loop of [setup_directories]: an error of a [mkdir] ends it. *)
Fixpoint mkdir_all (ps : list path) (d : disk) : option os_error * disk :=
  match ps with
  | [] => (None, d)
  | p :: rest =>
      match mkdir_p p d with
      | (None, d') => mkdir_all rest d'
      | (Some e, d') => (Some e, d')
      end
  end.

Definition setup_directories (d : disk) : option os_error * disk :=
  mkdir_all directories d.

(** The file of the log handler that the module makes when it is loaded. *)
Definition log_file : path := ["outputs"; "logs"; "workflow.log"].

(** [logging.FileHandler('outputs/logs/workflow.log')]: the handler opens its
    file for appending at once, which makes the file when it is missing and
    needs its directory. *)
Definition open_log_handler (d : disk) : option os_error * disk :=
  match walk [] (removelast log_file) d with
  | WalkNotDir => (Some (NotADirectoryError log_file), d)
  | WalkMissing => (Some (FileNotFoundError log_file), d)
  | WalkOk =>
      if is_dir log_file d then (Some (IsADirectoryError log_file), d)
      else
        match regular d !! path_str log_file with
        | Some _ => (None, d)
        | None =>
            (None,
             {| dirs := dirs d;
                regular := <[path_str log_file := TextFile ""]> (regular d) |})
        end
  end.

(** The start of a program that uses the module: the module is loaded, which
    configures the logging, and then [WorkflowOrchestrator()] begins with
    [setup_directories]. *)
Definition load_then_setup (d : disk) : option os_error * disk :=
  match open_log_handler d with
  | (Some e, d') => (Some e, d')
  | (None, d') => setup_directories d'
  end.


(** What the callers of [run_workflow] and [batch_process] read from a
    record without a default: [success], and then [duration] and
    [output_files] (whose length they take) or, in the batch summary,
    [topic]; from a failed record they read [error] with a default. *)
Definition record_usable (r : dict) : Prop :=
  exists (topic duration : string) (b : bool),
    dict_get "topic" r = Some (VStr topic)
    /\ dict_get "duration" r = Some (VStr duration)
    /\ dict_get "success" r = Some (VBool b)
    /\ if b
       then exists paths,
              dict_get "output_files" r = Some (VList paths)
              /\ length paths = 4%nat
       else exists message, dict_get "error" r = Some (VStr message).

(** The last character of a string. *)
Fixpoint last_char (s : string) : option ascii :=
  match s with
  | EmptyString => None
  | String c EmptyString => Some c
  | String _ s' => last_char s'
  end.

(** ** The interactive mode

    The console is modelled by what is typed, a list of lines, and by what
    is said, a list of events: one event for each call of [print] or
    [input], with the values that the call puts into its text; the fixed
    text around them is left out. *)

Module PyInt.

(** The whitespace that [int] skips around a number: the whitespace of
    ASCII, and the other whitespace below 256, which [int] turns into
    spaces first.  The separators 28 to 31 are not in it. *)
Definition int_space (c : ascii) : bool :=
  let n := PyStr.code c in
  PyStr.in_range 9 13 n || (n =? 32) || (n =? 133) || (n =? 160).

Definition is_digit (c : ascii) : bool := PyStr.in_range 48 57 (PyStr.code c).

Fixpoint lstrip_by (p : ascii -> bool) (s : string) : string :=
  match s with
  | EmptyString => EmptyString
  | String c s' => if p c then lstrip_by p s' else s
  end.

Fixpoint rstrip_by (p : ascii -> bool) (s : string) : string :=
  match s with
  | EmptyString => EmptyString
  | String c s' =>
      match rstrip_by p s' with
      | EmptyString => if p c then EmptyString else String c EmptyString
      | r => String c r
      end
  end.

(** Digits, with single underscores between them only. *)
Fixpoint digits_ok (after_digit : bool) (s : string) : bool :=
  match s with
  | EmptyString => after_digit
  | String c s' =>
      if is_digit c then digits_ok true s'
      else if Ascii.eqb c "_"%char then after_digit && digits_ok false s'
      else false
  end.

(** [sys.get_int_max_str_digits()], as Python sets it. *)
Definition max_str_digits : nat := 4300.

(** The number after the sign. *)
Definition unsigned (body : string) : option Z :=
  if digits_ok false body
  then
    let digits := PyStr.filter_join is_digit body in
    if (max_str_digits <? String.length digits)%nat then None
    else option_map Z.of_uint (NilEmpty.uint_of_string digits)
  else None.

(** [int(s)] for a string: the number, or [None] for [ValueError]. *)
Definition int (s : string) : option Z :=
  match rstrip_by int_space (lstrip_by int_space s) with
  | String "-" body => option_map Z.opp (unsigned body)
  | String "+" body => unsigned body
  | body => unsigned body
  end.

End PyInt.

(** [s.strip()] *)
Definition strip (s : string) : string :=
  PyStr.rstrip (PyInt.lstrip_by PyStr.isspace s).

(** One event for each [print] and each [input] of [interactive_mode]. *)
Inductive console : Type :=
| Title
| Rule
| LoopRule
| AskTopic
| PromptTopic
| Goodbye
| InvalidTopic
| AskWordCount
| PromptWordCount
| UsingDefault
| Processing (topic : string)
| TargetWords (word_count : Z)
| Completed (duration : value)
| FilesSaved (n : nat)
| Failed (error : value)
| ErrorInMode (message : string).

(** [str(EOFError)] of the [input] that finds no line. *)
Definition eof_message : string := "EOF when reading a line".

(** [topic.lower() in ['quit', 'exit', 'q']] *)
Definition is_quit (topic : string) : bool :=
  let t := PyStr.lower topic in
  String.eqb t "quit" || String.eqb t "exit" || String.eqb t "q".

(** [int(word_count_input) if word_count_input else 2000], with the
    handler of [ValueError]. *)
Definition read_word_count (word_count_input : string) : Z * list console :=
  match word_count_input with
  | EmptyString => (2000, [])
  | _ =>
      match PyInt.int word_count_input with
      | Some n => (n, [])
      | None => (2000, [UsingDefault])
      end
  end.

(** [len(v)], or the message of the [TypeError]. *)
Definition py_len (v : value) : nat + string :=
  match v with
  | VStr s => inl (String.length s)
  | VList l => inl (length l)
  | VDict d => inl (length d)
  | VInt _ => inr "object of type 'int' has no len()"
  | VFloat _ => inr "object of type 'float' has no len()"
  | VBool _ => inr "object of type 'bool' has no len()"
  end.

(** The prints after a run: what is said, and the message of the exception
    that a missing key or a value without length raises, if any. *)
Definition report (results : dict) : list console * option string :=
  match dict_get "success" results with
  | None => ([], Some (exn_str (key_error "success")))
  | Some v =>
      if truthy (Some v)
      then
        match dict_get "duration" results with
        | None => ([], Some (exn_str (key_error "duration")))
        | Some duration =>
            match dict_get "output_files" results with
            | None => ([Completed duration],
                       Some (exn_str (key_error "output_files")))
            | Some output_files =>
                match py_len output_files with
                | inl n => ([Completed duration; FilesSaved n], None)
                | inr message => ([Completed duration], Some message)
                end
            end
        end
      else
        match dict_get "error" results with
        | Some error => ([Failed error], None)
        | None => ([Failed (VStr "Unknown error")], None)
        end
  end.

(** The loop of [interactive_mode] on the lines that are typed: what is
    said and the world that is left.  The handler of [Exception] around the
    loop ends it with one more print. *)
Fixpoint interactive_loop (E : env) (lines : list string) (w : world)
  : list console * world :=
  match lines with
  | [] => ([LoopRule; AskTopic; PromptTopic; ErrorInMode eof_message], w)
  | line :: rest =>
      let topic := strip line in
      if is_quit topic
      then ([LoopRule; AskTopic; PromptTopic; Goodbye], w)
      else
        match topic with
        | EmptyString =>
            let '(said, w') := interactive_loop E rest w in
            ([LoopRule; AskTopic; PromptTopic; InvalidTopic] ++ said, w')%list
        | _ =>
            match rest with
            | [] =>
                ([LoopRule; AskTopic; PromptTopic; AskWordCount;
                  PromptWordCount; ErrorInMode eof_message], w)
            | line2 :: rest2 =>
                let '(word_count, notice) := read_word_count (strip line2) in
                let asked :=
                  ([LoopRule; AskTopic; PromptTopic; AskWordCount;
                    PromptWordCount] ++ notice
                   ++ [Processing topic; TargetWords word_count])%list in
                match run_workflow E topic word_count w with
                | (Raised e, w') =>
                    ((asked ++ [ErrorInMode (exn_str e)])%list, w')
                | (Return results, w') =>
                    match report results with
                    | (told, Some message) =>
                        ((asked ++ told ++ [ErrorInMode message])%list, w')
                    | (told, None) =>
                        let '(said, w'') := interactive_loop E rest2 w' in
                        ((asked ++ told ++ said)%list, w'')
                    end
                end
            end
        end
  end.


(** The runs that a session announces: each [Processing] with the
    [TargetWords] that follows it. *)
Fixpoint announced (said : list console) : list (string * Z) :=
  match said with
  | [] => []
  | Processing topic :: said' =>
      match said' with
      | TargetWords word_count :: said'' => (topic, word_count) :: announced said''
      | _ => announced said'
      end
  | _ :: said' => announced said'
  end.

(** The events that end a session. *)
Definition is_end (ev : console) : bool :=
  match ev with
  | Goodbye | ErrorInMode _ => true
  | _ => false
  end.


(** What is said up to the reading of the word count. *)
Definition asked_both : list console :=
  [LoopRule; AskTopic; PromptTopic; AskWordCount; PromptWordCount].

(** * Proofs *)

(** ** Facts on strings *)

Section StringFacts.

Lemma append_snoc_nonempty (s : string) (c : ascii) :
  s +:+ String c EmptyString <> EmptyString.
Proof. destruct s; discriminate. Qed.

Lemma append_inj_r (s a b : string) : s +:+ a = s +:+ b -> a = b.
Proof.
  induction s as [|c s IH]; simpl; intros H.
  - exact H.
  - injection H as H. auto.
Qed.

(** Inside a word, [split_scan] yields that word and the words that start
    later. *)
Lemma split_scan_length (s : string) :
  forall cur,
    length (PyStr.split_scan cur s)
    = match cur with
      | EmptyString => token_starts true s
      | _ => S (token_starts false s)
      end.
Proof.
  induction s as [|c s IH]; intros cur; simpl.
  - destruct cur; reflexivity.
  - destruct (PyStr.isspace c) eqn:Hc; simpl.
    + destruct cur; simpl; rewrite IH; reflexivity.
    + rewrite IH.
      destruct (cur +:+ String c EmptyString) eqn:Hcur.
      * exfalso. exact (append_snoc_nonempty _ _ Hcur).
      * destruct cur; reflexivity.
Qed.

(** [s.split()] has as many words as the text has tokens. *)
Lemma split_length (s : string) :
  length (PyStr.split s) = token_count s.
Proof. unfold PyStr.split, token_count. apply split_scan_length. Qed.

Lemma filter_join_app (keep : ascii -> bool) (a b : string) :
  PyStr.filter_join keep (a +:+ b)
  = PyStr.filter_join keep a +:+ PyStr.filter_join keep b.
Proof.
  induction a as [|c a IH]; simpl.
  - reflexivity.
  - destruct (keep c); simpl; rewrite IH; reflexivity.
Qed.

Lemma append_cons (x : ascii) (a b : string) :
  String x a +:+ b = String x (a +:+ b).
Proof. reflexivity. Qed.

Lemma append_assoc (a b c : string) : (a +:+ b) +:+ c = a +:+ (b +:+ c).
Proof.
  induction a as [|x a IH]; [reflexivity|].
  rewrite !append_cons, IH. reflexivity.
Qed.

Lemma append_empty_r (a : string) : a +:+ EmptyString = a.
Proof.
  induction a as [|x a IH]; [reflexivity|].
  rewrite append_cons, IH. reflexivity.
Qed.

(** The words that [split_scan] yields are words, and put together they are
    the word being read followed by the rest of the text without its
    whitespace. *)
Lemma split_scan_words (s : string) :
  forall cur,
    PyStr.filter_join PyStr.isspace cur = EmptyString ->
    Forall is_word (PyStr.split_scan cur s)
    /\ fold_right String.append EmptyString (PyStr.split_scan cur s)
       = cur +:+ PyStr.filter_join (fun c => negb (PyStr.isspace c)) s.
Proof.
  induction s as [|c s IH]; intros cur Hcur; simpl.
  - rewrite append_empty_r. destruct cur as [|x cur]; simpl.
    + split; [constructor | reflexivity].
    + rewrite append_empty_r. split; [|reflexivity].
      constructor; [|constructor]. split; [discriminate | exact Hcur].
  - destruct (PyStr.isspace c) eqn:Hc; simpl.
    + destruct (IH EmptyString eq_refl) as [Hwords Hcat].
      destruct cur as [|x cur].
      * split; [exact Hwords | exact Hcat].
      * split.
        -- constructor; [|exact Hwords]. split; [discriminate | exact Hcur].
        -- simpl. rewrite Hcat. reflexivity.
    + assert (Hcur' : PyStr.filter_join PyStr.isspace (cur +:+ String c EmptyString)
                      = EmptyString).
      { rewrite filter_join_app, Hcur. simpl. rewrite Hc. reflexivity. }
      destruct (IH _ Hcur') as [Hwords Hcat].
      split; [exact Hwords|]. rewrite Hcat, append_assoc. reflexivity.
Qed.

(** [s.split()] yields words, and loses nothing but whitespace. *)
Lemma split_words (s : string) :
  Forall is_word (PyStr.split s)
  /\ fold_right String.append EmptyString (PyStr.split s)
     = PyStr.filter_join (fun c => negb (PyStr.isspace c)) s.
Proof. unfold PyStr.split. apply (split_scan_words s EmptyString eq_refl). Qed.

Lemma prefix_nil (s : string) : String.prefix EmptyString s = true.
Proof. destruct s; reflexivity. Qed.

(** Replacing the one-character string [nl] touches the newlines only. *)
Lemma replace_nl_br (s : string) :
  PyStr.replace nl "<br>" s = newlines_to_br s.
Proof.
  unfold PyStr.replace, nl.
  induction s as [|c s IH].
  - reflexivity.
  - cbn [PyStr.replace_scan newlines_to_br String.prefix String.length Nat.sub].
    destruct (ascii_dec "010" c) as [<-|Hne].
    + rewrite prefix_nil. cbn [Ascii.eqb Bool.eqb]. cbn. rewrite IH. reflexivity.
    + destruct (Ascii.eqb c "010") eqn:Heq.
      * apply Ascii.eqb_eq in Heq. congruence.
      * rewrite IH. reflexivity.
Qed.

(** A text without newline is embedded as it is. *)
Lemma newlines_to_br_id (s : string) :
  PyStr.filter_join (fun c => Ascii.eqb c "010"%char) s = EmptyString ->
  newlines_to_br s = s.
Proof.
  induction s as [|c s IH]; simpl; intros H.
  - reflexivity.
  - destruct (Ascii.eqb c "010"); [discriminate|]. rewrite IH; auto.
Qed.

End StringFacts.

(** ** The artifact writer *)

Ltac dict_compute :=
  cbn [dict_get dict_set dict_has String.eqb Ascii.eqb Bool.eqb andb].

Ltac dict_compute_in H :=
  cbn [dict_get dict_set dict_has String.eqb Ascii.eqb Bool.eqb andb] in H.

Section ArtifactWriter.

Variable E : env.

Lemma paths_differ (stem a b : string) :
  a <> b -> blog_posts +:+ stem +:+ a <> blog_posts +:+ stem +:+ b.
Proof.
  intros Hab H. apply Hab.
  apply append_inj_r in H. apply append_inj_r in H. exact H.
Qed.

(** A write either succeeds and is recorded, or raises and leaves the
    files as they were. *)
Lemma save_as_cases key path content files_saved w :
  (write_error E (tick w) path = None
   /\ save_as E key path content files_saved w
      = (Return (dict_set key (VStr path) files_saved),
         {| workflow_metrics := workflow_metrics w;
            files := <[path := content]> (files w);
            tick := S (tick w) |}))
  \/ (exists e,
        write_error E (tick w) path = Some e
        /\ save_as E key path content files_saved w = (Raised e, with_tick w)).
Proof.
  unfold save_as, bind, write_file, ret.
  destruct (write_error E (tick w) path) as [e|].
  - right. exists e. split; reflexivity.
  - left. split; reflexivity.
Qed.

Ltac writer_step H :=
  match type of H with
  | context [save_as E ?k ?p ?c ?f ?w0] =>
      let Hs := fresh "Hs" in
      let e := fresh "e" in
      destruct (save_as_cases k p c f w0) as [[_ Hs] | (e & _ & Hs)];
      rewrite Hs in H; clear Hs
  end.

Ltac writer_cases H :=
  unfold save_output_files in H; cbn [try_steps] in H;
  repeat writer_step H;
  injection H as <- <-.

Ltac lookup_written :=
  cbn [files with_tick];
  repeat (rewrite lookup_insert_ne by (apply paths_differ; discriminate));
  apply lookup_insert_eq.

(** When no write fails, the four files are recorded, in this order. *)
Lemma save_output_files_all (topic content : string)
    (timestamp : PyTime.datetime) (w : world) :
  (forall n path, write_error E n path = None) ->
  let stem := file_stem topic timestamp in
  fst (save_output_files E topic content timestamp w)
  = Return [ ("markdown", VStr (blog_posts +:+ stem +:+ ".md"));
             ("text", VStr (blog_posts +:+ stem +:+ ".txt"));
             ("html", VStr (blog_posts +:+ stem +:+ ".html"));
             ("metadata", VStr (blog_posts +:+ stem +:+ "_metadata.json")) ].
Proof.
  intros Hok stem.
  destruct (save_output_files E topic content timestamp w) as [r w'] eqn:Hrun.
  unfold save_output_files in Hrun. cbn [try_steps] in Hrun.
  unfold save_as, bind, write_file, ret in Hrun.
  rewrite !Hok in Hrun. cbn [tick] in Hrun. rewrite ?Hok in Hrun.
  injection Hrun as <- <-. reflexivity.
Qed.

(** C8. The metadata record that [save_output_files] writes has, as
    [word_count], the number of whitespace-delimited tokens of the content
    it was given and, as [character_count], the length of that content. *)
Theorem metadata_counts (topic content : string)
    (timestamp : PyTime.datetime) (w w' : world) (files_saved : dict)
    (p : string) :
  save_output_files E topic content timestamp w = (Return files_saved, w') ->
  dict_get "metadata" files_saved = Some (VStr p) ->
  exists md,
    files w' !! p = Some (JsonFile (VDict md))
    /\ dict_get "word_count" md = Some (VInt (Z.of_nat (token_count content)))
    /\ dict_get "character_count" md
       = Some (VInt (Z.of_nat (String.length content))).
Proof.
  intros Hrun Hkey.
  writer_cases Hrun; dict_compute_in Hkey; try discriminate.
  injection Hkey as <-. eexists. split.
  - lookup_written.
  - unfold metadata_of. dict_compute. rewrite split_length. split; reflexivity.
Qed.

(** C9. The HTML file is the template around the content in which every
    newline became a line-break tag and every other character stayed; the
    markdown and text files hold the content as it was given. *)
Theorem html_artifact_is_template (topic content : string)
    (timestamp : PyTime.datetime) (w w' : world) (files_saved : dict) :
  save_output_files E topic content timestamp w = (Return files_saved, w') ->
  (forall p, dict_get "html" files_saved = Some (VStr p) ->
     files w' !! p
     = Some (TextFile (html_head topic +:+ newlines_to_br content +:+ html_tail)))
  /\ (forall p, dict_get "markdown" files_saved = Some (VStr p) ->
        files w' !! p = Some (TextFile content))
  /\ (forall p, dict_get "text" files_saved = Some (VStr p) ->
        files w' !! p = Some (TextFile content)).
Proof.
  intros Hrun.
  writer_cases Hrun; repeat split; intros p Hkey; dict_compute_in Hkey;
    try discriminate; injection Hkey as <-;
    unfold html_content; rewrite ?replace_nl_br; lookup_written.
Qed.

End ArtifactWriter.

(** The content of the example has five tokens and thirty-three characters,
    and its metadata says so. *)
Lemma metadata_counts_witness :
  exists md,
    files (snd (save_output_files Examples.E0 "Edge/Case?" Examples.two_lines
                  Examples.t_030405 Examples.w0))
      !! "outputs/blog_posts/edgecase_20240102_030405_metadata.json"
    = Some (JsonFile (VDict md))
    /\ dict_get "word_count" md = Some (VInt 5)
    /\ dict_get "character_count" md = Some (VInt 33).
Proof.
  refine (metadata_counts Examples.E0 "Edge/Case?" Examples.two_lines
            Examples.t_030405 Examples.w0 _ _ _ _ _); vm_compute; reflexivity.
Defined.

Lemma html_artifact_is_template_witness :
  files (snd (save_output_files Examples.E0 "Edge/Case?" Examples.two_lines
                Examples.t_030405 Examples.w0))
    !! "outputs/blog_posts/edgecase_20240102_030405.html"
  = Some (TextFile
            (html_head "Edge/Case?"
             +:+ "Hello  <b>world</b><br>second & last" +:+ html_tail)).
Proof.
  refine (proj1 (html_artifact_is_template Examples.E0 "Edge/Case?"
                   Examples.two_lines Examples.t_030405 Examples.w0 _ _ _) _ _);
    vm_compute; reflexivity.
Defined.

(** ** Slugs and file names *)

(** C2, as amended. The slug keeps one underscore for each space that is
    left once the other characters are dropped: the slug of
    [AI & Society!!] is [ai__society], the slug of three spaces is empty,
    and for the topic [Edge/Case?] at 2024-01-02T03:04:05 the file names
    have the stem [edgecase_20240102_030405], both in the listing of
    [_get_output_files] and in what [save_output_files] writes. *)
Theorem slug_examples :
  safe_topic "AI & Society!!" = "ai__society"
  /\ safe_topic "   " = ""
  /\ file_stem "Edge/Case?" Examples.t_030405 = "edgecase_20240102_030405"
  /\ _get_output_files "Edge/Case?" Examples.t_030405
     = [ "outputs/blog_posts/edgecase_20240102_030405.md";
         "outputs/blog_posts/edgecase_20240102_030405.html";
         "outputs/blog_posts/edgecase_20240102_030405.txt";
         "outputs/blog_posts/edgecase_20240102_030405_metadata.json" ]
  /\ forall clk ko content w,
       fst (save_output_files (mk_env clk ko Examples.never_fails)
              "Edge/Case?" content Examples.t_030405 w)
       = Return
           [ ("markdown", VStr "outputs/blog_posts/edgecase_20240102_030405.md");
             ("text", VStr "outputs/blog_posts/edgecase_20240102_030405.txt");
             ("html", VStr "outputs/blog_posts/edgecase_20240102_030405.html");
             ("metadata",
              VStr "outputs/blog_posts/edgecase_20240102_030405_metadata.json") ].
Proof.
  repeat split; try (vm_compute; reflexivity).
Qed.

(** The values that the claim gives for the first and the third example are
    not the ones the code computes. *)
Lemma slug_examples_as_claimed :
  safe_topic "AI & Society!!" <> "ai_society"
  /\ file_stem "Edge/Case?" Examples.t_030405 <> "edge_case_20240102_030405".
Proof. split; vm_compute; discriminate. Qed.

(** ** The metrics snapshot *)

(** C4. [get_performance_metrics] returns, leaves the metrics and the files
    as they are, reports the success rate as
    [successful_runs / total_runs * 100] when [total_runs] is positive and
    as [0] otherwise, and reports the same estimated cost in every state:
    [15000 / 1000 * 0.002], which is [0.03]. *)
Theorem snapshot_is_pure_read (E : env) (w : world) :
  exists snapshot w',
    get_performance_metrics E w = (Return snapshot, w')
    /\ workflow_metrics w' = workflow_metrics w
    /\ files w' = files w
    /\ (0 < total_runs (workflow_metrics w) ->
        dict_get "success_rate" snapshot
        = Some (VFloat (inject_Z (successful_runs (workflow_metrics w))
                        / inject_Z (total_runs (workflow_metrics w)) * 100)%Q))
    /\ (total_runs (workflow_metrics w) = 0 ->
        dict_get "success_rate" snapshot = Some (VInt 0))
    /\ dict_get "total_runs" snapshot
       = Some (VInt (total_runs (workflow_metrics w)))
    /\ dict_get "successful_runs" snapshot
       = Some (VInt (successful_runs (workflow_metrics w)))
    /\ dict_get "failed_runs" snapshot
       = Some (VInt (failed_runs (workflow_metrics w)))
    /\ dict_get "estimated_cost_per_run" snapshot = Some (VFloat _estimate_cost)
    /\ (_estimate_cost == inject_Z 15000 / inject_Z 1000 * 0.002)%Q
    /\ (_estimate_cost == 0.03)%Q.
Proof.
  eexists. eexists. split; [reflexivity|].
  dict_compute. unfold success_rate.
  repeat split; try reflexivity.
  - intros Hpos. apply Z.ltb_lt in Hpos. rewrite Hpos. reflexivity.
  - intros Hzero. rewrite Hzero. reflexivity.
Qed.

(** ** One run *)

Section OneRun.

Variable E : env.

(** Saving a record returns, whatever the write does, and touches the files
    only. *)
Lemma save_workflow_results_returns (results : dict) (w : world) :
  exists fs,
    _save_workflow_results E results w
    = (Return tt,
       {| workflow_metrics := workflow_metrics w;
          files := fs;
          tick := S (S (tick w)) |}).
Proof.
  unfold _save_workflow_results, bind, try_except, now, write_file, ret, with_tick.
  cbn [tick files workflow_metrics].
  match goal with |- context [write_error E ?t ?p] =>
    destruct (write_error E t p) end; eexists; reflexivity.
Qed.

Lemma save_error_report_returns (error_details : dict) (w : world) :
  exists fs,
    _save_error_report E error_details w
    = (Return tt,
       {| workflow_metrics := workflow_metrics w;
          files := fs;
          tick := S (S (tick w)) |}).
Proof.
  unfold _save_error_report, bind, try_except, now, write_file, ret, with_tick.
  cbn [tick files workflow_metrics].
  match goal with |- context [write_error E ?t ?p] =>
    destruct (write_error E t p) end; eexists; reflexivity.
Qed.

(** A run in which the framework returns [out]. *)
Lemma run_workflow_returned (topic : string) (word_count : Z) (w : world)
    (out : string) (fs : gmap string file) :
  crew_kickoff E (S (tick w)) topic word_count (files w) = (inl out, fs) ->
  let start_time := clock E (tick w) in
  let end_time := clock E (S (S (tick w))) in
  let duration := PyTime.sub end_time start_time in
  let m' := update_avg_duration (PyTime.total_seconds duration)
              (incr_successful_runs (incr_total_runs (workflow_metrics w))) in
  exists performance fs',
    run_workflow E topic word_count w
    = (Return
         [ ("topic", VStr topic);
           ("word_count", VInt word_count);
           ("start_time", VStr (PyTime.isoformat start_time));
           ("end_time", VStr (PyTime.isoformat end_time));
           ("duration", VStr (PyTime.str_timedelta duration));
           ("duration_seconds", VFloat (PyTime.total_seconds duration));
           ("final_output", VStr out);
           ("agents_used", VInt agents_used);
           ("tasks_completed", VInt tasks_completed);
           ("success", VBool true);
           ("output_files", VList (map VStr (_get_output_files topic start_time)));
           ("metrics", VDict performance) ],
       {| workflow_metrics := m'; files := fs'; tick := 6 + tick w |}).
Proof.
  intros Hko start_time end_time duration m'.
  unfold run_workflow, bind, try_except, update_metrics, now, kickoff, with_tick.
  cbn [tick files workflow_metrics]. rewrite Hko.
  unfold get_performance_metrics, bind, read_metrics, now, ret, with_tick.
  cbn [tick files workflow_metrics].
  match goal with |- context [_save_workflow_results E ?r ?w0] =>
    destruct (save_workflow_results_returns r w0) as [fs' ->] end.
  eexists. exists fs'. reflexivity.
Qed.

(** A run in which the framework raises [e]. *)
Lemma run_workflow_raised (topic : string) (word_count : Z) (w : world)
    (e : exn) (fs : gmap string file) :
  crew_kickoff E (S (tick w)) topic word_count (files w) = (inr e, fs) ->
  let start_time := clock E (tick w) in
  let end_time := clock E (S (S (tick w))) in
  let duration := PyTime.sub end_time start_time in
  exists fs',
    run_workflow E topic word_count w
    = (Return
         [ ("topic", VStr topic);
           ("word_count", VInt word_count);
           ("start_time", VStr (PyTime.isoformat start_time));
           ("end_time", VStr (PyTime.isoformat end_time));
           ("duration", VStr (PyTime.str_timedelta duration));
           ("error", VStr (exn_str e));
           ("traceback", VStr (exn_traceback e));
           ("success", VBool false) ],
       {| workflow_metrics := incr_failed_runs (incr_total_runs (workflow_metrics w));
          files := fs';
          tick := 5 + tick w |}).
Proof.
  intros Hko start_time end_time duration.
  unfold run_workflow, bind, try_except, update_metrics, now, kickoff, with_tick.
  cbn [tick files workflow_metrics]. rewrite Hko.
  cbn [tick files workflow_metrics].
  match goal with |- context [_save_error_report E ?r ?w0] =>
    destruct (save_error_report_returns r w0) as [fs' ->] end.
  exists fs'. reflexivity.
Qed.

End OneRun.

Section RunRecords.

Variable E : env.


(** C6. The record of a run has exactly one of the two groups of fields,
    the one its [success] flag names: [final_output] and [output_files]
    without [error] and [traceback] when the flag is true, [error] and
    [traceback] without [final_output] and [output_files] when it is
    false. *)
Theorem run_record_groups (topic : string) (word_count : Z) (w : world) :
  exists r w',
    run_workflow E topic word_count w = (Return r, w')
    /\ ((dict_get "success" r = Some (VBool true)
         /\ has_output_group r /\ lacks_error_group r)
        \/ (dict_get "success" r = Some (VBool false)
            /\ has_error_group r /\ lacks_output_group r)).
Proof.
  destruct (crew_kickoff E (S (tick w)) topic word_count (files w))
    as [[out|e] fs] eqn:Hko.
  - destruct (run_workflow_returned E topic word_count w out fs Hko)
      as (performance & fs' & ->).
    eexists. eexists. split; [reflexivity|]. left.
    unfold has_output_group, lacks_error_group. dict_compute.
    repeat split.
  - destruct (run_workflow_raised E topic word_count w e fs Hko) as (fs' & ->).
    eexists. eexists. split; [reflexivity|]. right.
    unfold has_error_group, lacks_output_group. dict_compute.
    repeat split.
Qed.

(** C10. In a successful run the field [output_files] is the list of four
    paths that [_get_output_files] builds from the topic and the start
    time: under [outputs/blog_posts/], with the endings [.md], [.html],
    [.txt] and [_metadata.json] in this order.  Neither the files that
    exist nor what the framework wrote enter it. *)
Theorem output_files_listing (topic : string) (word_count : Z) (w : world)
    (out : string) :
  driver_result E topic word_count w = inl out ->
  exists r w',
    run_workflow E topic word_count w = (Return r, w')
    /\ let stem := file_stem topic (clock E (tick w)) in
       dict_get "output_files" r
       = Some (VList [ VStr ("outputs/blog_posts/" +:+ stem +:+ ".md");
                       VStr ("outputs/blog_posts/" +:+ stem +:+ ".html");
                       VStr ("outputs/blog_posts/" +:+ stem +:+ ".txt");
                       VStr ("outputs/blog_posts/" +:+ stem +:+ "_metadata.json") ]).
Proof.
  unfold driver_result. intros Hres.
  destruct (crew_kickoff E (S (tick w)) topic word_count (files w))
    as [r fs] eqn:Hko.
  cbn [fst] in Hres. subst r.
  destruct (run_workflow_returned E topic word_count w out fs Hko)
    as (performance & fs' & ->).
  eexists. eexists. split; [reflexivity|]. dict_compute. reflexivity.
Qed.

End RunRecords.

(** A run on the topic [Edge/Case?] with a framework that writes no file:
    the four paths are listed. *)
Lemma output_files_listing_witness :
  exists r w',
    run_workflow Examples.E0 "Edge/Case?" 2000 Examples.w0 = (Return r, w')
    /\ dict_get "output_files" r
       = Some (VList
                 [ VStr "outputs/blog_posts/edgecase_20240102_030405.md";
                   VStr "outputs/blog_posts/edgecase_20240102_030405.html";
                   VStr "outputs/blog_posts/edgecase_20240102_030405.txt";
                   VStr "outputs/blog_posts/edgecase_20240102_030405_metadata.json" ]).
Proof.
  exact (output_files_listing Examples.E0 "Edge/Case?" 2000 Examples.w0
           "final text" eq_refl).
Defined.

(** None of the four listed files exists after that run. *)
Lemma listed_files_need_not_exist :
  let w' := snd (run_workflow Examples.E0 "Edge/Case?" 2000 Examples.w0) in
  Forall (fun p => files w' !! p = None)
         (_get_output_files "Edge/Case?" Examples.t_030405).
Proof. vm_compute. repeat constructor. Qed.

(** ** Counters *)

Section Counters.

Variable E : env.

(** What a run does to the metrics: one of two updates. *)
Lemma run_workflow_metrics (topic : string) (word_count : Z) (w : world) :
  let m := workflow_metrics w in
  let m' := workflow_metrics (snd (run_workflow E topic word_count w)) in
  (exists seconds,
      m' = update_avg_duration seconds (incr_successful_runs (incr_total_runs m)))
  \/ m' = incr_failed_runs (incr_total_runs m).
Proof.
  destruct (crew_kickoff E (S (tick w)) topic word_count (files w))
    as [[out|e] fs] eqn:Hko.
  - destruct (run_workflow_returned E topic word_count w out fs Hko)
      as (performance & fs' & Hrun).
    left. eexists. rewrite Hrun. reflexivity.
  - destruct (run_workflow_raised E topic word_count w e fs Hko) as (fs' & Hrun).
    right. rewrite Hrun. reflexivity.
Qed.

Lemma counters_le_refl (m : metrics) : counters_le m m.
Proof. unfold counters_le. lia. Qed.

Lemma counters_le_trans (m1 m2 m3 : metrics) :
  counters_le m1 m2 -> counters_le m2 m3 -> counters_le m1 m3.
Proof. unfold counters_le. lia. Qed.

Lemma run_workflow_counters (topic : string) (word_count : Z) (w : world) :
  let m := workflow_metrics w in
  let m' := workflow_metrics (snd (run_workflow E topic word_count w)) in
  counters_le m m' /\ (counters_ok m -> counters_ok m').
Proof.
  cbv zeta.
  pose proof (run_workflow_metrics topic word_count w) as Hm. cbv zeta in Hm.
  destruct Hm as [[seconds Hm] | Hm];
    rewrite Hm; unfold counters_le, counters_ok;
    cbn [update_avg_duration incr_successful_runs incr_failed_runs
         incr_total_runs total_runs successful_runs failed_runs]; lia.
Qed.

(** The world after one turn of the batch loop is the world after the run. *)
Lemma batch_step_world (word_count : Z) (results : list dict)
    (topic : string) (w : world) :
  snd (batch_step E word_count results topic w)
  = snd (run_workflow E topic word_count w).
Proof.
  unfold batch_step.
  destruct (run_workflow E topic word_count w) as [[r|e] w'].
  - destruct (dict_get "success" r); reflexivity.
  - reflexivity.
Qed.

Lemma batch_step_returns (word_count : Z) (results : list dict)
    (topic : string) (w : world) :
  exists results', fst (batch_step E word_count results topic w) = Return results'.
Proof.
  unfold batch_step.
  destruct (run_workflow E topic word_count w) as [[r|e] w'].
  - destruct (dict_get "success" r); eexists; reflexivity.
  - eexists; reflexivity.
Qed.

Lemma batch_loop_counters (word_count : Z) (topics : list string) :
  forall results w,
    let m := workflow_metrics w in
    let m' := workflow_metrics (snd (batch_loop E word_count results topics w)) in
    counters_le m m' /\ (counters_ok m -> counters_ok m').
Proof.
  induction topics as [|topic rest IH]; intros results w; cbn [batch_loop].
  - split; [apply counters_le_refl | auto].
  - unfold bind.
    pose proof (batch_step_world word_count results topic w) as Hw.
    destruct (batch_step_returns word_count results topic w) as [results' Hr].
    destruct (batch_step E word_count results topic w) as [o w1].
    cbn [fst snd] in Hw, Hr. subst o w1.
    destruct (run_workflow_counters topic word_count w) as [Hle Hok].
    destruct (IH results' (snd (run_workflow E topic word_count w)))
      as [Hle' Hok'].
    split.
    + eapply counters_le_trans; eassumption.
    + auto.
Qed.

(** The artifact writer does not touch the metrics. *)
Lemma save_output_files_metrics (topic content : string)
    (timestamp : PyTime.datetime) (w : world) :
  workflow_metrics (snd (save_output_files E topic content timestamp w))
  = workflow_metrics w.
Proof.
  unfold save_output_files. cbn [try_steps].
  unfold save_as, bind, write_file, ret, with_tick.
  repeat match goal with
  | |- context [match write_error E ?t ?p with _ => _ end] =>
      destruct (write_error E t p); cbn [tick files workflow_metrics]
  end; reflexivity.
Qed.

Lemma exec_call_counters (c : call) (w : world) :
  let m := workflow_metrics w in
  let m' := workflow_metrics (exec_call E c w) in
  counters_le m m' /\ (counters_ok m -> counters_ok m').
Proof.
  destruct c as [topic wc | topics wc | | topic content timestamp];
    cbn [exec_call].
  - apply run_workflow_counters.
  - apply batch_loop_counters.
  - split; [apply counters_le_refl | auto].
  - cbv zeta. rewrite save_output_files_metrics.
    split; [apply counters_le_refl | auto].
Qed.

Lemma exec_calls_counters_ok (cs : list call) :
  forall w, counters_ok (workflow_metrics w) ->
            counters_ok (workflow_metrics (exec_calls E cs w)).
Proof.
  induction cs as [|c cs IH]; intros w Hok; cbn [exec_calls fold_left].
  - exact Hok.
  - apply IH. apply exec_call_counters. exact Hok.
Qed.


End Counters.

(** ** The running average *)

Section RunningAverage.

Variable E : env.






End RunningAverage.

(** ** Batches *)

Section Batches.

Variable E : env.

Lemma run_workflow_returns (topic : string) (word_count : Z) (w : world) :
  exists r w',
    run_workflow E topic word_count w = (Return r, w')
    /\ dict_get "topic" r = Some (VStr topic)
    /\ dict_get "success" r
       = Some (VBool (match driver_result E topic word_count w with
                      | inl _ => true
                      | inr _ => false
                      end)).
Proof.
  unfold driver_result.
  destruct (crew_kickoff E (S (tick w)) topic word_count (files w))
    as [[out|e] fs] eqn:Hko; cbn [fst].
  - destruct (run_workflow_returned E topic word_count w out fs Hko)
      as (performance & fs' & ->).
    eexists. eexists. split; [reflexivity|]. dict_compute. split; reflexivity.
  - destruct (run_workflow_raised E topic word_count w e fs Hko) as (fs' & ->).
    eexists. eexists. split; [reflexivity|]. dict_compute. split; reflexivity.
Qed.

(** The loop appends to [results] the records of the runs, one for each
    topic and in their order: the fallback entry of the handler is never
    needed. *)
Lemma batch_loop_run_many (word_count : Z) (topics : list string) :
  forall (results : list dict) (w : world),
    exists rs w',
      run_many E (map (fun topic => (topic, word_count)) topics) w
      = (Return rs, w')
      /\ batch_loop E word_count results topics w
         = (Return (results ++ rs)%list, w').
Proof.
  induction topics as [|topic rest IH]; intros results w.
  - exists [], w. cbn. rewrite app_nil_r. split; reflexivity.
  - cbn [map run_many batch_loop]. unfold bind, batch_step.
    destruct (run_workflow_returns topic word_count w)
      as (r & w1 & -> & _ & ->).
    destruct (IH (results ++ [r])%list w1) as (rs & w' & -> & ->).
    eexists. eexists. split; [reflexivity|].
    unfold ret. rewrite <- app_assoc. reflexivity.
Qed.





End Batches.

(** ** The scenarios of the specification *)

(** A batch of three topics in which the framework fails on the second:
    three entries, the second one with [success = False]. *)
Example batch_of_three :
  match fst (batch_process Examples.E0 ["first"; "bad"; "third"] 2000 Examples.w0) with
  | Return rs =>
      map (dict_get "success") rs
      = [ Some (VBool true); Some (VBool false); Some (VBool true) ]
      /\ map (dict_get "topic") rs
         = [ Some (VStr "first"); Some (VStr "bad"); Some (VStr "third") ]
  | Raised _ => False
  end.
Proof. vm_compute. split; reflexivity. Qed.

(** Runs of 10 seconds (successful), 5 seconds (failed) and 20 seconds
    (successful): three runs, two successful, one failed, an average of 15
    seconds and a success rate of two thirds of 100. *)
Example metrics_scenario :
  let m := workflow_metrics
             (snd (run_many Examples.E1 Examples.scenario_calls Examples.w0)) in
  total_runs m = 3 /\ successful_runs m = 2 /\ failed_runs m = 1
  /\ (avg_duration m == 15)%Q
  /\ match success_rate m with
     | VFloat q => (q == 200 # 3)%Q
     | _ => False
     end.
Proof. vm_compute. repeat split; reflexivity. Qed.


(** * Properties of the code beyond the claims *)

(** ** Slugs *)

Section Slugs.

Ltac by_chars :=
  let c := fresh "c" in
  intros c; destruct c as [[] [] [] [] [] [] [] []]; vm_compute;
  try reflexivity; try discriminate; auto.

Lemma keep_char_slug_or_space :
  forall c, keep_char c = slug_char c || Ascii.eqb c " "%char.
Proof. by_chars. Qed.

Lemma slug_char_lower : forall c, slug_char (PyStr.lower_char c) = slug_char c.
Proof. by_chars. Qed.



Lemma lower_char_idem :
  forall c, PyStr.lower_char (PyStr.lower_char c) = PyStr.lower_char c.
Proof. by_chars. Qed.


Lemma slug_char_not_special :
  forall c, slug_char c = true -> path_special c = false.
Proof. by_chars. Qed.

Lemma keep_space_is_blank :
  forall c, keep_char c = true -> PyStr.isspace c = Ascii.eqb c " "%char.
Proof. by_chars. Qed.

Lemma all_chars_impl (p q : ascii -> bool) (s : string) :
  (forall c, p c = true -> q c = true) ->
  all_chars p s = true -> all_chars q s = true.
Proof.
  intros Hpq. induction s as [|c s IH]; cbn [all_chars]; [reflexivity|].
  intros H. apply andb_prop in H as [Hc Hs].
  rewrite (Hpq c Hc), (IH Hs). reflexivity.
Qed.

Lemma all_chars_filter (p : ascii -> bool) (s : string) :
  all_chars p (PyStr.filter_join p s) = true.
Proof.
  induction s as [|c s IH]; cbn [PyStr.filter_join all_chars]; [reflexivity|].
  destruct (p c) eqn:Hc; cbn [all_chars]; [rewrite Hc|]; exact IH.
Qed.

Lemma all_chars_rstrip (p : ascii -> bool) (s : string) :
  all_chars p s = true -> all_chars p (PyStr.rstrip s) = true.
Proof.
  induction s as [|c s IH]; cbn [PyStr.rstrip all_chars]; [reflexivity|].
  intros H. apply andb_prop in H as [Hc Hs]. specialize (IH Hs).
  destruct (PyStr.rstrip s) as [|d r].
  - destruct (PyStr.isspace c); cbn [all_chars]; [reflexivity|].
    rewrite Hc. reflexivity.
  - cbn [all_chars] in IH |- *. rewrite Hc. exact IH.
Qed.

(** Replacing a one-character string replaces that character. *)
Lemma replace_char (a : ascii) (new s : string) :
  PyStr.replace (String a EmptyString) new s = subst_char a new s.
Proof.
  unfold PyStr.replace.
  induction s as [|c s IH]; [reflexivity|].
  cbn [PyStr.replace_scan subst_char String.prefix String.length Nat.sub].
  destruct (ascii_dec a c) as [<-|Hne].
  - rewrite prefix_nil, Ascii.eqb_refl, IH. reflexivity.
  - destruct (Ascii.eqb c a) eqn:Heq.
    + apply Ascii.eqb_eq in Heq. congruence.
    + rewrite IH. reflexivity.
Qed.

Lemma all_chars_blank_to_underscore (s : string) :
  all_chars keep_char s = true ->
  all_chars slug_char (subst_char " " "_" s) = true.
Proof.
  induction s as [|c s IH]; cbn [subst_char all_chars]; [reflexivity|].
  intros H. apply andb_prop in H as [Hc Hs]. specialize (IH Hs).
  rewrite keep_char_slug_or_space in Hc.
  destruct (Ascii.eqb c " ") eqn:Hsp.
  - exact IH.
  - cbn [all_chars]. rewrite orb_false_r in Hc. rewrite Hc. exact IH.
Qed.

Lemma all_chars_lower (s : string) :
  all_chars slug_char s = true ->
  all_chars (fun c => slug_char c && Ascii.eqb (PyStr.lower_char c) c)
            (PyStr.lower s) = true.
Proof.
  induction s as [|c s IH]; cbn [PyStr.lower all_chars]; [reflexivity|].
  intros H. apply andb_prop in H as [Hc Hs].
  rewrite slug_char_lower, Hc, lower_char_idem, Ascii.eqb_refl, (IH Hs).
  reflexivity.
Qed.

(** The characters of a slug are slug characters that lowering keeps. *)
Lemma safe_topic_lowered_slug_chars (topic : string) :
  all_chars (fun c => slug_char c && Ascii.eqb (PyStr.lower_char c) c)
            (safe_topic topic) = true.
Proof.
  unfold safe_topic. rewrite replace_char.
  apply all_chars_lower, all_chars_blank_to_underscore, all_chars_rstrip,
    all_chars_filter.
Qed.

(** X1. A slug is made of alphanumeric characters, hyphens and underscores
    only: it has no whitespace, no slash, no backslash and no dot, so the
    file names built from it stay in their directory. *)
Theorem safe_topic_is_path_safe (topic : string) :
  all_chars slug_char (safe_topic topic) = true
  /\ all_chars (fun c => negb (path_special c)) (safe_topic topic) = true.
Proof.
  pose proof (safe_topic_lowered_slug_chars topic) as H.
  assert (Hslug : all_chars slug_char (safe_topic topic) = true).
  { revert H. apply all_chars_impl. intros c Hc.
    apply andb_prop in Hc as [Hc _]. exact Hc. }
  split; [exact Hslug|].
  revert Hslug. apply all_chars_impl. intros c Hc.
  rewrite (slug_char_not_special c Hc). reflexivity.
Qed.

Lemma filter_join_id (p : ascii -> bool) (s : string) :
  all_chars p s = true -> PyStr.filter_join p s = s.
Proof.
  induction s as [|c s IH]; cbn [PyStr.filter_join all_chars]; [reflexivity|].
  intros H. apply andb_prop in H as [Hc Hs]. rewrite Hc, (IH Hs). reflexivity.
Qed.

Lemma rstrip_id (s : string) :
  all_chars (fun c => negb (PyStr.isspace c)) s = true -> PyStr.rstrip s = s.
Proof.
  induction s as [|c s IH]; cbn [PyStr.rstrip all_chars]; [reflexivity|].
  intros H. apply andb_prop in H as [Hc Hs]. rewrite (IH Hs).
  destruct s; [|reflexivity].
  apply negb_true_iff in Hc. rewrite Hc. reflexivity.
Qed.





Lemma slug_char_not_blank :
  forall c, slug_char c = true -> negb (Ascii.eqb c " "%char) = true.
Proof. by_chars. Qed.



Lemma lower_empty (s : string) : PyStr.lower s = EmptyString -> s = EmptyString.
Proof. destruct s; [reflexivity | discriminate]. Qed.





(** X4. A character that the slug drops is invisible in the file names:
    with it or without it, at the same time, the output files are the
    same. *)
Theorem output_files_ignore_dropped
    (before after : string) (c : ascii) (timestamp : PyTime.datetime) :
  keep_char c = false ->
  _get_output_files (before +:+ String c after) timestamp
  = _get_output_files (before +:+ after) timestamp.
Proof.
  intros Hc.
  assert (H : safe_topic (before +:+ String c after) = safe_topic (before +:+ after)).
  { unfold safe_topic. rewrite !filter_join_app.
    cbn [PyStr.filter_join]. rewrite Hc. reflexivity. }
  unfold _get_output_files, file_stem. rewrite H. reflexivity.
Qed.

Lemma rstrip_empty (s : string) :
  PyStr.rstrip s = EmptyString <-> all_chars PyStr.isspace s = true.
Proof.
  induction s as [|c s IH]; cbn [PyStr.rstrip all_chars]; [tauto|].
  destruct (PyStr.rstrip s) as [|d r].
  - destruct (PyStr.isspace c); cbn [andb].
    + split; intros _; [apply IH|]; reflexivity.
    + split; discriminate.
  - split; [discriminate|].
    intros H. apply andb_prop in H as [_ Hs]. apply IH in Hs. discriminate.
Qed.

Lemma subst_blank_empty (s : string) :
  subst_char " " "_" s = EmptyString -> s = EmptyString.
Proof.
  destruct s as [|c s]; [reflexivity|]. cbn [subst_char].
  destruct (Ascii.eqb c " "); discriminate.
Qed.

Lemma kept_all_space (s : string) :
  all_chars PyStr.isspace (PyStr.filter_join keep_char s) = true
  <-> PyStr.filter_join slug_char s = EmptyString.
Proof.
  induction s as [|c s IH]; cbn [PyStr.filter_join all_chars]; [tauto|].
  pose proof (keep_char_slug_or_space c) as Hk.
  pose proof (keep_space_is_blank c) as Hsp.
  pose proof (slug_char_not_blank c) as Hnb.
  destruct (slug_char c) eqn:Hslug.
  - cbn [orb] in Hk. rewrite Hk. cbn [all_chars].
    rewrite (Hsp Hk). specialize (Hnb eq_refl). apply negb_true_iff in Hnb.
    rewrite Hnb. cbn [andb]. split; discriminate.
  - cbn [orb] in Hk. destruct (keep_char c) eqn:Hkeep.
    + cbn [all_chars]. rewrite (Hsp eq_refl), <- Hk. cbn [andb]. exact IH.
    + exact IH.
Qed.

(** X5. The slug is empty exactly when the topic has no alphanumeric
    character, no hyphen and no underscore; the file names then start with
    the underscore that precedes the time. *)
Theorem safe_topic_empty_iff (topic : string) :
  safe_topic topic = EmptyString
  <-> PyStr.filter_join slug_char topic = EmptyString.
Proof.
  rewrite <- kept_all_space, <- rstrip_empty.
  unfold safe_topic. rewrite replace_char. split.
  - intros H. apply lower_empty in H. apply subst_blank_empty in H. exact H.
  - intros ->. reflexivity.
Qed.

End Slugs.

(** ** The artifact writer, further *)

Section ArtifactWriterMore.

Variable E : env.

(** A step of the writer with what the oracle said. *)
Ltac writer_step_keep H :=
  match type of H with
  | context [save_as E ?k ?p ?c ?f ?w0] =>
      let Hs := fresh "Hs" in
      let He := fresh "Hwrite" in
      let e := fresh "e" in
      destruct (save_as_cases E k p c f w0) as [[He Hs] | (e & He & Hs)];
      rewrite Hs in H; clear Hs; cbn [tick] in He
  end.

Ltac writer_cases_keep H :=
  unfold save_output_files in H; cbn [try_steps] in H;
  repeat writer_step_keep H;
  injection H as <- <-.




(** X8. Every path that [save_output_files] reports was written by it: the
    file exists afterwards, and the path is one of those that
    [_get_output_files] lists for the same topic and time. *)
Theorem saved_files_exist_and_are_listed (topic content : string)
    (timestamp : PyTime.datetime) (w w' : world) (files_saved : dict)
    (key p : string) :
  save_output_files E topic content timestamp w = (Return files_saved, w') ->
  dict_get key files_saved = Some (VStr p) ->
  is_Some (files w' !! p)
  /\ In p (_get_output_files topic timestamp).
Proof.
  intros Hrun Hkey.
  assert (Hin : In (key, VStr p) files_saved).
  { clear Hrun. induction files_saved as [|[k v] d IH]; [discriminate|].
    cbn [dict_get] in Hkey. destruct (String.eqb key k) eqn:Hk.
    - apply String.eqb_eq in Hk. injection Hkey as ->. subst k. left. reflexivity.
    - right. apply IH, Hkey. }
  clear Hkey.
  writer_cases_keep Hrun; cbn [dict_set In] in Hin;
    repeat match goal with
    | H : _ \/ _ |- _ => destruct H as [H | H]
    | H : False |- _ => destruct H
    | H : (_, _) = (_, _) |- _ => injection H as <- <-
    end;
    (split;
     [ eexists; cbn [files with_tick];
       repeat (rewrite lookup_insert_ne by (apply paths_differ; discriminate));
       apply lookup_insert_eq
     | cbn [_get_output_files In]; tauto ]).
Qed.

(** X9. When no write fails, the files that [save_output_files] reports are
    the files that [_get_output_files] lists, each of them once, and all of
    them exist afterwards. *)
Theorem saved_files_are_the_listed_ones (topic content : string)
    (timestamp : PyTime.datetime) (w : world) :
  (forall n path, write_error E n path = None) ->
  exists files_saved w',
    save_output_files E topic content timestamp w = (Return files_saved, w')
    /\ map snd files_saved
       ≡ₚ map VStr (_get_output_files topic timestamp)
    /\ Forall (fun p => is_Some (files w' !! p))
              (_get_output_files topic timestamp).
Proof.
  intros Hok.
  destruct (save_output_files E topic content timestamp w) as [r w'] eqn:Hrun.
  writer_cases_keep Hrun;
    try match goal with
    | H : write_error E _ _ = Some _ |- _ => rewrite Hok in H; discriminate
    end.
  eexists. eexists. split; [reflexivity|]. split.
  - cbn [dict_set map snd _get_output_files].
    apply perm_skip. apply perm_swap.
  - cbn [_get_output_files].
    repeat (apply Forall_cons; split;
            [ eexists; cbn [files with_tick];
              repeat (rewrite lookup_insert_ne by (apply paths_differ; discriminate));
              apply lookup_insert_eq | ]).
    apply Forall_nil. exact I.
Qed.

(** X10. The metadata file names the three content files and not itself:
    its [files_created] is the dictionary as it was before the metadata
    entry was added, although the dictionary that is returned has that
    entry too. *)
Theorem metadata_lists_three_files (topic content : string)
    (timestamp : PyTime.datetime) (w w' : world) (files_saved : dict)
    (p : string) :
  save_output_files E topic content timestamp w = (Return files_saved, w') ->
  dict_get "metadata" files_saved = Some (VStr p) ->
  exists md,
    files w' !! p = Some (JsonFile (VDict md))
    /\ dict_get "files_created" md
       = Some (VDict (take 3 (all_saved topic timestamp)))
    /\ dict_get "topic" md = Some (VStr topic)
    /\ dict_get "timestamp" md = Some (VStr (PyTime.isoformat timestamp))
    /\ files_saved = all_saved topic timestamp.
Proof.
  intros Hrun Hkey.
  writer_cases_keep Hrun; dict_compute_in Hkey; try discriminate.
  injection Hkey as <-. eexists. split.
  - cbn [files]. apply lookup_insert_eq.
  - unfold metadata_of. dict_compute. repeat split.
Qed.

End ArtifactWriterMore.

(** ** Records on disk *)

Section RecordsOnDisk.

Variable E : env.

(** [_save_workflow_results] in full: the clock is read, the write is tried
    once, and a failure of it is swallowed. *)
Lemma save_workflow_results_files (results : dict) (w : world) :
  _save_workflow_results E results w
  = (Return tt,
     {| workflow_metrics := workflow_metrics w;
        files := files_after_write E (S (tick w))
                   (results_file (clock E (tick w)))
                   (JsonFile (VDict results)) (files w);
        tick := S (S (tick w)) |}).
Proof.
  unfold _save_workflow_results, bind, try_except, now, write_file, ret,
    with_tick, files_after_write, results_file.
  cbn [tick files workflow_metrics].
  match goal with |- context [write_error E ?t ?p] =>
    destruct (write_error E t p) end; reflexivity.
Qed.

Lemma save_error_report_files (error_details : dict) (w : world) :
  _save_error_report E error_details w
  = (Return tt,
     {| workflow_metrics := workflow_metrics w;
        files := files_after_write E (S (tick w))
                   (error_file (clock E (tick w)))
                   (JsonFile (VDict error_details)) (files w);
        tick := S (S (tick w)) |}).
Proof.
  unfold _save_error_report, bind, try_except, now, write_file, ret,
    with_tick, files_after_write, error_file.
  cbn [tick files workflow_metrics].
  match goal with |- context [write_error E ?t ?p] =>
    destruct (write_error E t p) end; reflexivity.
Qed.

(** The world after a run, with its files: those the framework left, and
    the record of the run when its write succeeded. *)
Lemma run_workflow_world (topic : string) (word_count : Z) (w : world) :
  exists r w',
    run_workflow E topic word_count w = (Return r, w')
    /\ match crew_kickoff E (S (tick w)) topic word_count (files w) with
       | (inl _, fs) =>
           files w' = files_after_write E (5 + tick w)
                        (results_file (clock E (4 + tick w)))
                        (JsonFile (VDict r)) fs
           /\ tick w' = (6 + tick w)%nat
       | (inr _, fs) =>
           files w' = files_after_write E (4 + tick w)
                        (error_file (clock E (3 + tick w)))
                        (JsonFile (VDict r)) fs
           /\ tick w' = (5 + tick w)%nat
       end.
Proof.
  unfold run_workflow, bind, try_except, update_metrics, now, kickoff, with_tick.
  cbn [tick files workflow_metrics].
  destruct (crew_kickoff E (S (tick w)) topic word_count (files w))
    as [[out|e] fs].
  - unfold get_performance_metrics, bind, read_metrics, now, ret, with_tick.
    cbn [tick files workflow_metrics].
    rewrite save_workflow_results_files. cbn [tick files workflow_metrics].
    eexists. eexists. split; [reflexivity|]. split; reflexivity.
  - cbn [tick files workflow_metrics].
    rewrite save_error_report_files. cbn [tick files workflow_metrics].
    unfold ret. eexists. eexists. split; [reflexivity|]. split; reflexivity.
Qed.

(** X11. The record that a run returns is the record it saves: when the
    write succeeds, the results file of a successful run, or the error
    report of a failed one, holds exactly the dictionary that
    [run_workflow] returns. *)
Theorem record_on_disk_is_record_returned
    (topic : string) (word_count : Z) (w w' : world) (r : dict) :
  run_workflow E topic word_count w = (Return r, w') ->
  write_error E (record_write_tick E topic word_count w)
              (record_file E topic word_count w) = None ->
  files w' !! record_file E topic word_count w = Some (JsonFile (VDict r)).
Proof.
  intros Hrun.
  destruct (run_workflow_world topic word_count w) as (r0 & w0 & Hrun0 & Hfiles).
  rewrite Hrun in Hrun0. injection Hrun0 as <- <-.
  unfold record_write_tick, record_file, driver_result.
  destruct (crew_kickoff E (S (tick w)) topic word_count (files w))
    as [[out|e] fs]; cbn [fst]; destruct Hfiles as [-> _];
    intros Hok; unfold files_after_write; rewrite Hok;
    apply lookup_insert_eq.
Qed.




End RecordsOnDisk.

(** ** Accounting of a run *)

Section Accounting.

(** X13. Whether the record can be saved changes nothing of what a run
    returns and counts: two environments that differ in their failing
    writes only give the same record, the same metrics and the same
    clock position. *)
Theorem failing_save_changes_no_result
    (clk : nat -> PyTime.datetime)
    (ko : nat -> string -> Z -> gmap string file ->
          (string + exn) * gmap string file)
    (we1 we2 : nat -> string -> option exn)
    (topic : string) (word_count : Z) (w : world) :
  let run1 := run_workflow (mk_env clk ko we1) topic word_count w in
  let run2 := run_workflow (mk_env clk ko we2) topic word_count w in
  fst run1 = fst run2
  /\ workflow_metrics (snd run1) = workflow_metrics (snd run2)
  /\ tick (snd run1) = tick (snd run2).
Proof.
  cbv zeta.
  unfold run_workflow, bind, try_except, update_metrics, now, kickoff, with_tick.
  cbn [tick files workflow_metrics clock crew_kickoff].
  destruct (ko (S (tick w)) topic word_count (files w)) as [[out|e] fs].
  - unfold get_performance_metrics, bind, read_metrics, now, ret, with_tick.
    cbn [tick files workflow_metrics clock].
    rewrite !save_workflow_results_files. cbn [fst snd workflow_metrics tick clock].
    repeat split.
  - cbn [tick files workflow_metrics clock].
    rewrite !save_error_report_files. unfold ret.
    cbn [fst snd workflow_metrics tick clock].
    repeat split.
Qed.

Variable E : env.


(** The success rate that belongs to consistent counters. *)
Lemma success_rate_range (m : metrics) :
  counters_ok m ->
  (total_runs m = 0 /\ success_rate m = VInt 0)
  \/ (0 < total_runs m
      /\ exists q, success_rate m = VFloat q /\ (0 <= q)%Q /\ (q <= 100)%Q).
Proof.
  intros (Hsum & Ht & Hs & Hf). unfold success_rate.
  destruct (0 <? total_runs m) eqn:Hpos.
  - right. apply Z.ltb_lt in Hpos. split; [exact Hpos|].
    eexists. split; [reflexivity|].
    assert (Htq : (0 < inject_Z (total_runs m))%Q).
    { unfold Qlt. cbn. lia. }
    assert (Hsq : (0 <= inject_Z (successful_runs m))%Q).
    { unfold Qle. cbn. lia. }
    assert (Hle : (inject_Z (successful_runs m) / inject_Z (total_runs m) <= 1)%Q).
    { apply Qle_shift_div_r; [exact Htq|].
      rewrite Qmult_1_l. unfold Qle. cbn. lia. }
    assert (Hge : (0 <= inject_Z (successful_runs m) / inject_Z (total_runs m))%Q).
    { apply Qle_shift_div_l; [exact Htq|].
      rewrite Qmult_0_l. exact Hsq. }
    split.
    + apply Qmult_le_0_compat; [exact Hge | discriminate].
    + apply Qle_trans with (1 * 100)%Q.
      * apply Qmult_le_compat_r; [exact Hle | discriminate].
      * discriminate.
  - left. apply Z.ltb_ge in Hpos. split; [lia | reflexivity].
Qed.

(** X15. In every state that a new orchestrator reaches, the success rate
    is the integer [0] before the first run and afterwards a number
    between 0 and 100. *)
Theorem success_rate_is_a_percentage
    (fs : gmap string file) (t : nat) (cs : list call) :
  let m := workflow_metrics (exec_calls E cs (new_world fs t)) in
  (total_runs m = 0 /\ success_rate m = VInt 0)
  \/ (0 < total_runs m
      /\ exists q, success_rate m = VFloat q /\ (0 <= q)%Q /\ (q <= 100)%Q).
Proof.
  cbv zeta. apply success_rate_range.
  apply exec_calls_counters_ok. unfold counters_ok. cbn. lia.
Qed.

(** X16. The snapshot inside the record of a successful run is taken after
    the run was counted: its counters, its average and its success rate are
    those of the metrics the run leaves. *)
Theorem record_snapshot_is_final (topic : string) (word_count : Z)
    (w w' : world) (r : dict) (out : string) :
  run_workflow E topic word_count w = (Return r, w') ->
  driver_result E topic word_count w = inl out ->
  exists snapshot,
    dict_get "metrics" r = Some (VDict snapshot)
    /\ dict_get "total_runs" snapshot
       = Some (VInt (total_runs (workflow_metrics w')))
    /\ dict_get "successful_runs" snapshot
       = Some (VInt (successful_runs (workflow_metrics w')))
    /\ dict_get "failed_runs" snapshot
       = Some (VInt (failed_runs (workflow_metrics w')))
    /\ dict_get "average_duration_seconds" snapshot
       = Some (VFloat (avg_duration (workflow_metrics w')))
    /\ dict_get "success_rate" snapshot = Some (success_rate (workflow_metrics w'))
    /\ dict_get "last_updated" snapshot
       = Some (VStr (PyTime.isoformat (clock E (3 + tick w)))).
Proof.
  unfold driver_result.
  unfold run_workflow, bind, try_except, update_metrics, now, kickoff, with_tick.
  cbn [tick files workflow_metrics].
  destruct (crew_kickoff E (S (tick w)) topic word_count (files w))
    as [[out'|e] fs]; cbn [fst]; [|discriminate].
  unfold get_performance_metrics, bind, read_metrics, now, ret, with_tick.
  cbn [tick files workflow_metrics].
  rewrite save_workflow_results_files. cbn [tick files workflow_metrics].
  intros Hrun _. injection Hrun as <- <-.
  eexists. dict_compute. split; [reflexivity|].
  cbn [workflow_metrics]. repeat split.
Qed.

End Accounting.

(** ** Batches, further *)

Section BatchesMore.

Variable E : env.

Lemma batch_loop_app (word_count : Z) (topics1 topics2 : list string) :
  forall (results : list dict) (w : world),
    batch_loop E word_count results (topics1 ++ topics2)%list w
    = bind (batch_loop E word_count results topics1)
           (fun results' => batch_loop E word_count results' topics2) w.
Proof.
  induction topics1 as [|topic rest IH]; intros results w.
  - reflexivity.
  - cbn [app batch_loop]. unfold bind.
    destruct (batch_step E word_count results topic w) as [[results'|e] w1].
    + rewrite IH. reflexivity.
    + reflexivity.
Qed.

(** The loop started on [results] yields [results] followed by what the
    loop started on the empty list yields. *)
Lemma batch_loop_acc (word_count : Z) (topics : list string)
    (results : list dict) (w : world) :
  exists rs w',
    batch_process E topics word_count w = (Return rs, w')
    /\ batch_loop E word_count results topics w = (Return (results ++ rs)%list, w').
Proof.
  unfold batch_process.
  destruct (batch_loop_run_many E word_count topics [] w) as (rs & w' & Hmany & ->).
  destruct (batch_loop_run_many E word_count topics results w)
    as (rs2 & w2 & Hmany2 & ->).
  rewrite Hmany in Hmany2. injection Hmany2 as <- <-.
  exists rs, w'. split; reflexivity.
Qed.

(** X17. A batch over two lists of topics one after the other is the batch
    over the first list followed, in the world it leaves, by the batch over
    the second: the results are the two result lists put together. *)
Theorem batch_process_app (topics1 topics2 : list string) (word_count : Z)
    (w : world) :
  exists rs1 w1 rs2 w2,
    batch_process E topics1 word_count w = (Return rs1, w1)
    /\ batch_process E topics2 word_count w1 = (Return rs2, w2)
    /\ batch_process E (topics1 ++ topics2)%list word_count w
       = (Return (rs1 ++ rs2)%list, w2).
Proof.
  destruct (batch_loop_acc word_count topics1 [] w) as (rs1 & w1 & H1 & _).
  destruct (batch_loop_acc word_count topics2 rs1 w1) as (rs2 & w2 & H2 & H2').
  exists rs1, w1, rs2, w2. split; [exact H1|]. split; [exact H2|].
  unfold batch_process in *. rewrite batch_loop_app. unfold bind.
  rewrite H1. exact H2'.
Qed.



End BatchesMore.

(** ** Directories and the start of the program *)

Section Directories.











Lemma is_file_add_dir (p q : path) (d : disk) :
  is_file p (add_dir q d) = is_file p d.
Proof. reflexivity. Qed.







(** X20. When the directory [outputs/logs] does not exist, loading the
    module fails in the making of its log handler and creates nothing:
    [setup_directories], which makes that directory, is not reached. *)
Theorem load_fails_without_log_directory (d : disk) :
  is_dir ["outputs"; "logs"] d = false ->
  exists e, open_log_handler d = (Some e, d)
            /\ load_then_setup d = (Some e, d).
Proof.
  intros Hlogs. unfold load_then_setup, open_log_handler.
  cbn [log_file removelast walk app].
  destruct (is_file ["outputs"] d); [eexists; split; reflexivity|].
  destruct (is_dir ["outputs"] d); [|eexists; split; reflexivity].
  destruct (is_file ["outputs"; "logs"] d); [eexists; split; reflexivity|].
  rewrite Hlogs. eexists; split; reflexivity.
Qed.

End Directories.

(** On an empty disk the load fails, although [setup_directories] alone
    succeeds there and the load succeeds after it. *)
Lemma load_fails_without_log_directory_witness :
  (exists e, open_log_handler (mk_disk ∅ ∅) = (Some e, mk_disk ∅ ∅)
             /\ load_then_setup (mk_disk ∅ ∅) = (Some e, mk_disk ∅ ∅))
  /\ fst (setup_directories (mk_disk ∅ ∅)) = None
  /\ fst (open_log_handler (snd (setup_directories (mk_disk ∅ ∅)))) = None.
Proof.
  split; [|split].
  - apply (load_fails_without_log_directory (mk_disk ∅ ∅)). reflexivity.
  - vm_compute. reflexivity.
  - vm_compute. reflexivity.
Defined.

(** ** File names and the clock *)

Section SameSecond.

Variable E : env.

Lemma same_second_strftime (a b : PyTime.datetime) :
  same_second a b -> PyTime.strftime_Ymd_HMS a = PyTime.strftime_Ymd_HMS b.
Proof.
  intros (Hy & Hmo & Hd & Hh & Hmi & Hs). unfold PyTime.strftime_Ymd_HMS.
  rewrite Hy, Hmo, Hd, Hh, Hmi, Hs. reflexivity.
Qed.

(** X21. The file names know the time to the second only.  Two readings of
    the clock in the same second give the same output files for a topic,
    and of two records saved in the same second the first is lost: after
    both saves the file holds the second record, whether or not the first
    had been written. *)
Theorem same_second_records_collide (r1 r2 : dict) (topic : string) (w : world) :
  same_second (clock E (tick w)) (clock E (2 + tick w)) ->
  write_error E (3 + tick w) (results_file (clock E (2 + tick w))) = None ->
  let w2 := snd (bind (_save_workflow_results E r1)
                      (fun _ => _save_workflow_results E r2) w) in
  _get_output_files topic (clock E (tick w))
  = _get_output_files topic (clock E (2 + tick w))
  /\ files w2
     = <[results_file (clock E (tick w)) := JsonFile (VDict r2)]> (files w).
Proof.
  intros Hsame Hok. cbv zeta.
  pose proof (same_second_strftime _ _ Hsame) as Hname.
  cbn [Nat.add] in Hname, Hok |- *.
  split.
  - unfold _get_output_files, file_stem. rewrite Hname. reflexivity.
  - unfold bind. rewrite save_workflow_results_files.
    rewrite save_workflow_results_files. cbn [snd files tick].
    unfold files_after_write at 1. rewrite Hok.
    unfold results_file in *. rewrite <- Hname.
    unfold files_after_write.
    destruct (write_error E (S (tick w)) _).
    + reflexivity.
    + apply insert_insert_eq.
Qed.

End SameSecond.

(** ** The properties above at concrete inputs *)

(** The slash of [Edge/Case?] is dropped: the files are those of
    [EdgeCase?]. *)
Lemma output_files_ignore_dropped_witness :
  _get_output_files "Edge/Case?" Examples.t_030405
  = _get_output_files "EdgeCase?" Examples.t_030405.
Proof.
  exact (output_files_ignore_dropped "Edge" "Case?" "/" Examples.t_030405 eq_refl).
Defined.


Lemma saved_files_exist_and_are_listed_witness :
  is_Some (files (snd (save_output_files Examples.E0 "Edge/Case?"
                         Examples.two_lines Examples.t_030405 Examples.w0))
             !! "outputs/blog_posts/edgecase_20240102_030405.html")
  /\ In "outputs/blog_posts/edgecase_20240102_030405.html"
        (_get_output_files "Edge/Case?" Examples.t_030405).
Proof.
  refine (saved_files_exist_and_are_listed Examples.E0 "Edge/Case?"
            Examples.two_lines Examples.t_030405 Examples.w0 _ _ "html" _ _ _);
    vm_compute; reflexivity.
Defined.

Lemma saved_files_are_the_listed_ones_witness :
  exists files_saved w',
    save_output_files Examples.E0 "Edge/Case?" Examples.two_lines
      Examples.t_030405 Examples.w0 = (Return files_saved, w')
    /\ map snd files_saved
       ≡ₚ map VStr (_get_output_files "Edge/Case?" Examples.t_030405)
    /\ Forall (fun p => is_Some (files w' !! p))
              (_get_output_files "Edge/Case?" Examples.t_030405).
Proof.
  apply (saved_files_are_the_listed_ones Examples.E0 "Edge/Case?"
           Examples.two_lines Examples.t_030405 Examples.w0).
  reflexivity.
Defined.

Lemma metadata_lists_three_files_witness :
  exists md,
    files (snd (save_output_files Examples.E0 "Edge/Case?" Examples.two_lines
                  Examples.t_030405 Examples.w0))
      !! "outputs/blog_posts/edgecase_20240102_030405_metadata.json"
    = Some (JsonFile (VDict md))
    /\ dict_get "files_created" md
       = Some (VDict
                 [ ("markdown", VStr "outputs/blog_posts/edgecase_20240102_030405.md");
                   ("text", VStr "outputs/blog_posts/edgecase_20240102_030405.txt");
                   ("html", VStr "outputs/blog_posts/edgecase_20240102_030405.html") ]).
Proof.
  destruct (metadata_lists_three_files Examples.E0 "Edge/Case?" Examples.two_lines
              Examples.t_030405 Examples.w0
              (snd (save_output_files Examples.E0 "Edge/Case?" Examples.two_lines
                      Examples.t_030405 Examples.w0))
              (all_saved "Edge/Case?" Examples.t_030405)
              "outputs/blog_posts/edgecase_20240102_030405_metadata.json"
              eq_refl eq_refl) as (md & Hfile & Hcreated & _).
  exists md. split; [exact Hfile | exact Hcreated].
Defined.

(** The record of a run on [Edge/Case?] is in its results file. *)
Lemma record_on_disk_is_record_returned_witness :
  let run := run_workflow Examples.E0 "Edge/Case?" 2000 Examples.w0 in
  exists r,
    fst run = Return r
    /\ files (snd run) !! "outputs/metrics/workflow_results_20240102_030409.json"
       = Some (JsonFile (VDict r)).
Proof.
  cbv zeta. eexists. split; [reflexivity|].
  refine (record_on_disk_is_record_returned Examples.E0 "Edge/Case?" 2000
            Examples.w0 _ _ _ _); reflexivity.
Defined.

Lemma record_snapshot_is_final_witness :
  let run := run_workflow Examples.E0 "Edge/Case?" 2000 Examples.w0 in
  exists r snapshot,
    fst run = Return r
    /\ dict_get "metrics" r = Some (VDict snapshot)
    /\ dict_get "total_runs" snapshot = Some (VInt 1)
    /\ dict_get "successful_runs" snapshot = Some (VInt 1).
Proof.
  cbv zeta. eexists.
  destruct (record_snapshot_is_final Examples.E0 "Edge/Case?" 2000 Examples.w0
              _ _ "final text" eq_refl eq_refl)
    as (snapshot & Hm & Ht & Hs & _).
  exists snapshot. split; [reflexivity|]. split; [exact Hm|].
  split; [exact Ht | exact Hs].
Defined.

(** Two records saved while the clock stands at 03:04:05: one file, with
    the second record. *)
Lemma same_second_records_collide_witness :
  let w := new_world ∅ 3 in
  let r1 := [("topic", VStr "first")] in
  let r2 := [("topic", VStr "second")] in
  let w2 := snd (bind (_save_workflow_results Examples.E1 r1)
                      (fun _ => _save_workflow_results Examples.E1 r2) w) in
  _get_output_files "a topic" (clock Examples.E1 3)
  = _get_output_files "a topic" (clock Examples.E1 5)
  /\ files w2
     = <[ "outputs/metrics/workflow_results_20240102_030405.json"
          := JsonFile (VDict r2) ]> (files w).
Proof.
  apply (same_second_records_collide Examples.E1
           [("topic", VStr "first")] [("topic", VStr "second")] "a topic"
           (new_world ∅ 3)).
  - vm_compute. repeat split.
  - reflexivity.
Defined.

(** ** What the callers read *)

Section Callers.

Variable E : env.

Lemma run_workflow_usable (topic : string) (word_count : Z) (w : world) :
  exists r w',
    run_workflow E topic word_count w = (Return r, w') /\ record_usable r.
Proof.
  destruct (crew_kickoff E (S (tick w)) topic word_count (files w))
    as [[out|e] fs] eqn:Hko.
  - destruct (run_workflow_returned E topic word_count w out fs Hko)
      as (performance & fs' & ->).
    eexists. eexists. split; [reflexivity|].
    eexists. eexists. exists true. dict_compute.
    repeat split. eexists. split; reflexivity.
  - destruct (run_workflow_raised E topic word_count w e fs Hko) as (fs' & ->).
    eexists. eexists. split; [reflexivity|].
    eexists. eexists. exists false. dict_compute.
    repeat split. eexists. reflexivity.
Qed.



End Callers.

(** ** Distinct files *)

Section DistinctFiles.

Lemma last_char_app (s t : string) :
  t <> EmptyString -> last_char (s +:+ t) = last_char t.
Proof.
  intros Ht. induction s as [|c s IH]; [reflexivity|].
  rewrite append_cons. cbn [last_char].
  destruct (s +:+ t) eqn:Hst; [|exact IH].
  destruct s as [|a s]; [|discriminate].
  change (EmptyString +:+ t) with t in Hst. congruence.
Qed.

Lemma append_snoc_inj (s1 : string) :
  forall (s2 : string) (c1 c2 : ascii),
    s1 +:+ String c1 EmptyString = s2 +:+ String c2 EmptyString ->
    s1 = s2 /\ c1 = c2.
Proof.
  induction s1 as [|a s1 IH]; intros [|b s2] c1 c2 H.
  - injection H as ->. split; reflexivity.
  - rewrite append_cons in H. injection H as _ H.
    destruct s2; discriminate.
  - rewrite append_cons in H. injection H as _ H.
    destruct s1; discriminate.
  - rewrite !append_cons in H. injection H as -> H.
    destruct (IH _ _ _ H) as [-> ->]. split; reflexivity.
Qed.

Lemma append_inj_l (x : string) :
  forall s1 s2, s1 +:+ x = s2 +:+ x -> s1 = s2.
Proof.
  induction x as [|c x IH]; intros s1 s2 H.
  - rewrite !append_empty_r in H. exact H.
  - change (String c x) with (String c EmptyString +:+ x) in H.
    rewrite <- !append_assoc in H. apply IH in H.
    apply append_snoc_inj in H as [H _]. exact H.
Qed.

(** The four endings tell the files apart, whatever the stems are. *)
Lemma endings_tell_apart (s1 s2 e1 e2 : string) :
  In e1 [".md"; ".html"; ".txt"; "_metadata.json"] ->
  In e2 [".md"; ".html"; ".txt"; "_metadata.json"] ->
  s1 +:+ e1 = s2 +:+ e2 -> s1 = s2 /\ e1 = e2.
Proof.
  intros H1 H2 Heq.
  assert (Hne : forall e, In e [".md"; ".html"; ".txt"; "_metadata.json"] ->
                          e <> EmptyString).
  { intros e He. cbn [In] in He.
    repeat (destruct He as [<-|He]; [discriminate|]). destruct He. }
  pose proof (f_equal last_char Heq) as Hlast.
  rewrite !last_char_app in Hlast by auto.
  cbn [In] in H1, H2.
  repeat (destruct H1 as [<-|H1]);
    repeat (destruct H2 as [<-|H2]);
    try contradiction; try discriminate;
    (split; [eapply append_inj_l, Heq | reflexivity]).
Qed.

(** X23. The four output files of a topic and a time are pairwise distinct,
    and the files of two runs are the same four when the stems are equal
    and have no file in common when they are not: the endings [.md],
    [.html], [.txt], [_metadata.json] never make two different stems meet. *)
Theorem output_files_equal_or_disjoint
    (topic1 topic2 : string) (t1 t2 : PyTime.datetime) :
  List.NoDup (_get_output_files topic1 t1)
  /\ ((file_stem topic1 t1 = file_stem topic2 t2
       /\ _get_output_files topic1 t1 = _get_output_files topic2 t2)
      \/ (file_stem topic1 t1 <> file_stem topic2 t2
          /\ forall p, In p (_get_output_files topic1 t1) ->
                       ~ In p (_get_output_files topic2 t2))).
Proof.
  assert (Hmeet : forall s1 s2 e1 e2,
             In e1 [".md"; ".html"; ".txt"; "_metadata.json"] ->
             In e2 [".md"; ".html"; ".txt"; "_metadata.json"] ->
             blog_posts +:+ s1 +:+ e1 = blog_posts +:+ s2 +:+ e2 ->
             s1 = s2 /\ e1 = e2).
  { intros s1 s2 e1 e2 H1 H2 Heq. apply append_inj_r in Heq.
    apply endings_tell_apart; assumption. }
  split.
  - unfold _get_output_files.
    repeat (constructor;
            [ cbn [In]; intros Hin;
              repeat (destruct Hin as [Hin|Hin];
                      [apply Hmeet in Hin; cbn [In]; [|tauto..];
                       destruct Hin as [_ Hin]; discriminate|]);
              exact Hin | ]).
    constructor.
  - destruct (string_dec (file_stem topic1 t1) (file_stem topic2 t2)) as [Hs|Hs].
    + left. split; [exact Hs|]. unfold _get_output_files. rewrite Hs. reflexivity.
    + right. split; [exact Hs|]. unfold _get_output_files.
      intros p Hin1 Hin2. cbn [In] in Hin1, Hin2.
      repeat (destruct Hin1 as [<-|Hin1]); try contradiction;
        repeat (destruct Hin2 as [Hin2|Hin2]); try contradiction;
        (apply Hmeet in Hin2; cbn [In]; [|tauto..];
         destruct Hin2 as [Hin2 _]; congruence).
Qed.

End DistinctFiles.

(** ** The interactive mode *)


Section ReadingNumbers.

Lemma string_of_uint_digits (u : Decimal.uint) :
  all_chars PyInt.is_digit (NilEmpty.string_of_uint u) = true.
Proof. induction u; cbn [NilEmpty.string_of_uint all_chars]; auto. Qed.

Lemma lstrip_by_id (p : ascii -> bool) (s : string) :
  all_chars (fun c => negb (p c)) s = true -> PyInt.lstrip_by p s = s.
Proof.
  destruct s as [|c s]; [reflexivity|]. cbn [all_chars PyInt.lstrip_by].
  intros H. apply andb_prop in H as [Hc _]. apply negb_true_iff in Hc.
  rewrite Hc. reflexivity.
Qed.

Lemma rstrip_by_id (p : ascii -> bool) (s : string) :
  all_chars (fun c => negb (p c)) s = true -> PyInt.rstrip_by p s = s.
Proof.
  induction s as [|c s IH]; cbn [PyInt.rstrip_by all_chars]; [reflexivity|].
  intros H. apply andb_prop in H as [Hc Hs]. rewrite (IH Hs).
  destruct s; [|reflexivity].
  apply negb_true_iff in Hc. rewrite Hc. reflexivity.
Qed.

Lemma digits_ok_digits (s : string) :
  all_chars PyInt.is_digit s = true ->
  forall b, PyInt.digits_ok b s
            = match s with EmptyString => b | _ => true end.
Proof.
  induction s as [|c s IH]; cbn [all_chars PyInt.digits_ok]; [reflexivity|].
  intros H b. apply andb_prop in H as [Hc Hs]. rewrite Hc, (IH Hs).
  destruct s; reflexivity.
Qed.

Lemma digit_not_space :
  forall c, PyInt.is_digit c = true ->
            negb (PyInt.int_space c) = true /\ negb (PyStr.isspace c) = true.
Proof.
  intros c; destruct c as [[] [] [] [] [] [] [] []]; vm_compute;
    try discriminate; auto.
Qed.

(** The digits of a number, read as [int] reads what follows the sign. *)
Lemma unsigned_digits (u : Decimal.uint) :
  u <> Decimal.Nil ->
  (String.length (NilEmpty.string_of_uint u) <= PyInt.max_str_digits)%nat ->
  PyInt.unsigned (NilEmpty.string_of_uint u) = Some (Z.of_uint u).
Proof.
  intros Hnil Hlen. unfold PyInt.unsigned.
  pose proof (string_of_uint_digits u) as Hd.
  rewrite (digits_ok_digits _ Hd).
  destruct (NilEmpty.string_of_uint u) eqn:Hs.
  { destruct u; cbn in Hs; congruence. }
  rewrite <- Hs in *. rewrite (filter_join_id _ _ Hd).
  apply Nat.ltb_ge in Hlen. rewrite Hlen.
  rewrite NilEmpty.usu. reflexivity.
Qed.

(** What [str] writes for an integer, [int] reads back. *)
Lemma int_of_Z (n : Z) :
  (String.length (PyStr.of_Z (Z.abs n)) <= PyInt.max_str_digits)%nat ->
  PyInt.int (PyStr.of_Z n) = Some n
  /\ strip (PyStr.of_Z n) = PyStr.of_Z n
  /\ PyStr.of_Z n <> EmptyString.
Proof.
  unfold PyStr.of_Z. intros Hlen.
  assert (Hpos : forall u,
             u <> Decimal.Nil ->
             (String.length (NilEmpty.string_of_uint u) <= PyInt.max_str_digits)%nat ->
             PyInt.int (NilEmpty.string_of_uint u) = Some (Z.of_uint u)
             /\ strip (NilEmpty.string_of_uint u) = NilEmpty.string_of_uint u
             /\ NilEmpty.string_of_uint u <> EmptyString).
  { intros u Hu Hl.
    pose proof (string_of_uint_digits u) as Hd.
    assert (Hns : all_chars (fun c => negb (PyInt.int_space c))
                            (NilEmpty.string_of_uint u) = true).
    { revert Hd. apply all_chars_impl. intros c Hc. apply digit_not_space, Hc. }
    assert (Hns' : all_chars (fun c => negb (PyStr.isspace c))
                             (NilEmpty.string_of_uint u) = true).
    { revert Hd. apply all_chars_impl. intros c Hc. apply digit_not_space, Hc. }
    split; [|split].
    - unfold PyInt.int. rewrite (lstrip_by_id _ _ Hns), (rstrip_by_id _ _ Hns).
      rewrite <- (unsigned_digits u Hu Hl).
      destruct u; try congruence; reflexivity.
    - unfold strip. rewrite (lstrip_by_id _ _ Hns'). apply rstrip_id, Hns'.
    - destruct u; try congruence; discriminate. }
  destruct n as [|p|p].
  - split; [|split]; [vm_compute; reflexivity | vm_compute; reflexivity | discriminate].
  - pose proof (DecimalPos.Unsigned.to_uint_nonnil p) as Hnil.
    assert (Heq : NilZero.string_of_int (Decimal.Pos (Pos.to_uint p))
                  = NilEmpty.string_of_uint (Pos.to_uint p)).
    { cbn. destruct (Pos.to_uint p); congruence || reflexivity. }
    change (Z.to_int (Z.abs (Z.pos p))) with (Decimal.Pos (Pos.to_uint p)) in Hlen.
    change (Z.to_int (Z.pos p)) with (Decimal.Pos (Pos.to_uint p)).
    rewrite Heq in *.
    destruct (Hpos _ Hnil Hlen) as (Hint & Hstrip & Hne).
    split; [|split; assumption].
    rewrite Hint. f_equal.
    exact (DecimalZ.of_to (Z.pos p)).
  - pose proof (DecimalPos.Unsigned.to_uint_nonnil p) as Hnil.
    assert (Heq : NilZero.string_of_int (Decimal.Pos (Pos.to_uint p))
                  = NilEmpty.string_of_uint (Pos.to_uint p)).
    { cbn. destruct (Pos.to_uint p); congruence || reflexivity. }
    assert (Heqn : NilZero.string_of_int (Decimal.Neg (Pos.to_uint p))
                   = String "-" (NilEmpty.string_of_uint (Pos.to_uint p))).
    { cbn. destruct (Pos.to_uint p); congruence || reflexivity. }
    change (Z.to_int (Z.abs (Z.neg p))) with (Decimal.Pos (Pos.to_uint p)) in Hlen.
    change (Z.to_int (Z.neg p)) with (Decimal.Neg (Pos.to_uint p)).
    rewrite Heq in Hlen. rewrite Heqn.
    pose proof (string_of_uint_digits (Pos.to_uint p)) as Hd.
    assert (Hns : all_chars (fun c => negb (PyInt.int_space c))
                            (NilEmpty.string_of_uint (Pos.to_uint p)) = true).
    { revert Hd. apply all_chars_impl. intros c Hc. apply digit_not_space, Hc. }
    assert (Hns' : all_chars (fun c => negb (PyStr.isspace c))
                             (NilEmpty.string_of_uint (Pos.to_uint p)) = true).
    { revert Hd. apply all_chars_impl. intros c Hc. apply digit_not_space, Hc. }
    split; [|split; [|discriminate]].
    + unfold PyInt.int.
      rewrite lstrip_by_id by (cbn [all_chars]; rewrite Hns; reflexivity).
      rewrite rstrip_by_id by (cbn [all_chars]; rewrite Hns; reflexivity).
      rewrite (unsigned_digits _ Hnil Hlen). cbn [option_map]. f_equal.
      exact (DecimalZ.of_to (Z.neg p)).
    + unfold strip.
      rewrite lstrip_by_id by (cbn [all_chars]; rewrite Hns'; reflexivity).
      apply rstrip_id. cbn [all_chars]. rewrite Hns'. reflexivity.
Qed.

End ReadingNumbers.

Section InteractiveMode.

Variable E : env.

(** The prints after a run never fail on a record of [run_workflow]. *)
Lemma report_usable (r : dict) :
  record_usable r ->
  exists told,
    report r = (told, None)
    /\ Forall (fun ev => is_end ev = false) told
    /\ forall said, announced (told ++ said)%list = announced said.
Proof.
  intros (topic & duration & b & _ & Hd & Hs & Hb). unfold report.
  rewrite Hs. destruct b; cbn [truthy].
  - destruct Hb as (paths & Hp & Hlen). rewrite Hd, Hp. cbn [py_len].
    eexists. split; [reflexivity|]. split.
    + repeat constructor.
    + reflexivity.
  - destruct Hb as (message & Hm). rewrite Hm.
    eexists. split; [reflexivity|]. split.
    + repeat constructor.
    + reflexivity.
Qed.


(** One turn of the loop with a topic and a line for the word count. *)
Lemma interactive_loop_step (line line2 : string) (rest : list string)
    (w : world) :
  is_quit (strip line) = false ->
  strip line <> EmptyString ->
  exists told w1,
    w1 = snd (run_workflow E (strip line) (fst (read_word_count (strip line2))) w)
    /\ Forall (fun ev => is_end ev = false) told
    /\ (forall said, announced (told ++ said)%list = announced said)
    /\ interactive_loop E (line :: line2 :: rest) w
       = ((asked_both ++ snd (read_word_count (strip line2))
           ++ [Processing (strip line);
               TargetWords (fst (read_word_count (strip line2)))]
           ++ told ++ fst (interactive_loop E rest w1))%list,
          snd (interactive_loop E rest w1)).
Proof.
  intros Hquit Hne. cbn [interactive_loop]. rewrite Hquit.
  destruct (strip line) as [|c topic] eqn:Htopic; [congruence|].
  destruct (read_word_count (strip line2)) as [word_count notice].
  cbn [fst snd].
  destruct (run_workflow_usable E (String c topic) word_count w)
    as (r & w1 & Hrun & Husable).
  rewrite Hrun. cbn [snd].
  destruct (report_usable r Husable) as (told & -> & Hend & Hann).
  exists told, w1. split; [reflexivity|]. split; [exact Hend|].
  split; [exact Hann|].
  destruct (interactive_loop E rest w1) as [said w2]. cbn [fst snd].
  unfold asked_both. rewrite <- !app_assoc. reflexivity.
Qed.




(** X24. An integer typed as the word count is passed to [run_workflow] as
    it is, with no check of its sign or size: after a topic that is neither
    empty nor a word of leave, the session announces the topic stripped and
    the integer, and goes on from the world that this run leaves. *)
Theorem typed_integer_is_passed_on (line : string) (n : Z)
    (rest : list string) (w : world) :
  is_quit (strip line) = false ->
  strip line <> EmptyString ->
  (String.length (PyStr.of_Z (Z.abs n)) <= PyInt.max_str_digits)%nat ->
  firstn 7 (fst (interactive_loop E (line :: PyStr.of_Z n :: rest) w))
  = (asked_both ++ [Processing (strip line); TargetWords n])%list
  /\ announced (fst (interactive_loop E (line :: PyStr.of_Z n :: rest) w))
     = (strip line, n)
       :: announced (fst (interactive_loop E rest
                            (snd (run_workflow E (strip line) n w))))
  /\ snd (interactive_loop E (line :: PyStr.of_Z n :: rest) w)
     = snd (interactive_loop E rest (snd (run_workflow E (strip line) n w))).
Proof.
  intros Hquit Hne Hdigits.
  destruct (int_of_Z n Hdigits) as (Hint & Hstrip & Hnonempty).
  destruct (interactive_loop_step line (PyStr.of_Z n) rest w Hquit Hne)
    as (told & w1 & Hw1 & _ & Hann & ->).
  assert (Hread : read_word_count (strip (PyStr.of_Z n)) = (n, [])).
  { rewrite Hstrip. unfold read_word_count. rewrite Hint.
    destruct (PyStr.of_Z n); [congruence | reflexivity]. }
  rewrite Hread in *. cbn [fst snd] in *. subst w1.
  split; [reflexivity|]. split; [|reflexivity].
  unfold asked_both. cbn [app announced]. apply f_equal, Hann.
Qed.

(** X25. A word count that [int] does not read becomes 2000: the run is
    announced and made with 2000, after the notice of the default when the
    line was not blank and with no notice when it was. *)
Theorem unreadable_word_count_becomes_2000 (line line2 : string)
    (rest : list string) (w : world) :
  is_quit (strip line) = false ->
  strip line <> EmptyString ->
  PyInt.int (strip line2) = None ->
  let notice :=
    match strip line2 with EmptyString => [] | _ => [UsingDefault] end in
  let w1 := snd (run_workflow E (strip line) 2000 w) in
  exists told,
    Forall (fun ev => is_end ev = false) told
    /\ interactive_loop E (line :: line2 :: rest) w
       = ((asked_both ++ notice
           ++ [Processing (strip line); TargetWords 2000]
           ++ told ++ fst (interactive_loop E rest w1))%list,
          snd (interactive_loop E rest w1)).
Proof.
  intros Hquit Hne Hint notice w1.
  destruct (interactive_loop_step line line2 rest w Hquit Hne)
    as (told & w1' & Hw1 & Hend & _ & ->).
  assert (Hread : read_word_count (strip line2) = (2000, notice)).
  { unfold read_word_count, notice. rewrite Hint.
    destruct (strip line2); reflexivity. }
  rewrite Hread in *. cbn [fst snd] in *. subst w1'.
  exists told. split; [exact Hend | reflexivity].
Qed.



End InteractiveMode.

(** A topic, then the integer [-5]: the run is made with [-5]. *)
Lemma typed_integer_is_passed_on_witness :
  is_quit (strip " AI ") = false
  /\ strip " AI " <> EmptyString
  /\ (String.length (PyStr.of_Z (Z.abs (-5))) <= PyInt.max_str_digits)%nat
  /\ announced
       (fst (interactive_loop Examples.E0 [" AI "; "-5"; "quit"] Examples.w0))
     = [("AI", -5)].
Proof.
  split; [reflexivity|]. split; [discriminate|].
  split; [apply Nat.leb_le; vm_compute; reflexivity|].
  destruct (typed_integer_is_passed_on Examples.E0 " AI " (-5) ["quit"]
              Examples.w0 eq_refl ltac:(discriminate)
              ltac:(apply Nat.leb_le; vm_compute; reflexivity))
    as (_ & H & _).
  exact H.
Defined.

(** A topic, then [2,000]: the run is made with 2000, after the notice. *)
Lemma unreadable_word_count_becomes_2000_witness :
  PyInt.int (strip "2,000") = None
  /\ exists told,
       fst (interactive_loop Examples.E0 ["AI"; "2,000"; "q"] Examples.w0)
       = (asked_both ++ [UsingDefault]
          ++ [Processing "AI"; TargetWords 2000]
          ++ told ++ [LoopRule; AskTopic; PromptTopic; Goodbye])%list.
Proof.
  split; [reflexivity|].
  destruct (unreadable_word_count_becomes_2000 Examples.E0 "AI" "2,000" ["q"]
              Examples.w0 eq_refl ltac:(discriminate) eq_refl)
    as (told & _ & H).
  exists told. rewrite H. reflexivity.
Defined.
